(** * go-etcd-exportedservice: exported named etcd ports

    A shallow embedding of package [exportedservice] and the properties of
    its lease and port-export protocol.

    The package talks to two collaborators: the etcd client (lease grant,
    keepalive, put, delete) and the socket layer of package [net].  Every
    call that leaves the package is a constructor of [Call]; a method of
    the package is a program of type [Prog], a finite tree of such calls,
    and [run] executes a program against an arbitrary handler of the calls.
    Properties quantify over all handlers, so they hold whatever the store
    and the platform answer.

    The repository holds two generations of the package:
    - [Leased]: [exportedport.go] with the context-taking
      [ListenAndServeNamedHTTP], on the etcd v3 client, keys folded with the
      lease identifier;
    - [Legacy]: the go-etcd (v2) variant with [AddChild], and
      [exportedhttpservice.go]. *)

From stdpp Require Import base strings list gmap pretty.
From Stdlib Require Import ZArith Lia Ascii String HexadecimalString
  HexadecimalN.

Local Open Scope Z_scope.
Local Open Scope string_scope.

(** ** Values shared with the collaborators *)

(** A non-nil Go [error] value; the Go type [error] itself is nil-able. *)
Inductive GoError : Type :=
| ErrMsg (msg : string).

Definition error : Type := option GoError.

(** The outcome of a collaborator call whose value the package reads only
    when the error is nil. *)
Inductive result (A : Type) : Type :=
| Ok (a : A)
| Fail (err : GoError).
Arguments Ok {A} a.
Arguments Fail {A} err.

(** [*etcd.Client], an opaque handle. *)
Inductive Client : Type :=
| ClientRef (id : N).

(** [context.Context]. *)
Inductive Context : Type :=
| Background
| CallerContext (id : N).

(** [etcd.LeaseID] is an [int64]; the package stores, compares and prints
    it and does no arithmetic on it. *)
Definition LeaseID : Type := Z.

Record LeaseGrantResponse : Type := { ID : LeaseID }.

(** [<-chan *etcd.LeaseKeepAliveResponse], nil-able. *)
Inductive Chan : Type :=
| NilChan
| ChanRef (id : N).

Inductive TLSConfig : Type :=
| TLSConfigRef (id : N).

Inductive HTTPHandler : Type :=
| HandlerRef (id : N).

(** [net.Listener]: a bound socket with the address it resolved to, or the
    wrapper [tls.NewListener] puts around one. *)
Inductive Listener : Type :=
| NetListener (fd : N) (addr : string)
| TLSListener (inner : Listener) (config : TLSConfig).

(** [l.Addr().String()] *)
Fixpoint Listener_Addr (l : Listener) : string :=
  match l with
  | NetListener _ addr => addr
  | TLSListener inner _ => Listener_Addr inner
  end.

(** The socket under a listener. *)
Fixpoint Listener_fd (l : Listener) : N :=
  match l with
  | NetListener fd _ => fd
  | TLSListener inner _ => Listener_fd inner
  end.

(** go-etcd (v2) [*etcd.Response] with its nil-able [Node]. *)
Record Node : Type := { Key : string }.
Record Response : Type := { Node_ : option Node }.

(** ** Pure library functions *)

(** [net.SplitHostPort] and [net.JoinHostPort] belong to Go's library, not
    to the package: they are taken as an interface.  [SplitHostPort]
    answers [Some (host, port)] when its error is nil. *)
Class NetLib : Type := {
  SplitHostPort : string -> option (string * string);
  JoinHostPort : string -> string -> string
}.

(** Hexadecimal digits of a natural number, lower case, as [%x] prints. *)
Definition hex_of_N (n : N) : string :=
  HexadecimalString.NilZero.string_of_uint (N.to_hex_uint n).

(** [%x] of a signed integer: sign, then the digits of the magnitude. *)
Definition fmt_x (v : Z) : string :=
  if (v <? 0)%Z then "-" ++ hex_of_N (Z.abs_N v) else hex_of_N (Z.abs_N v).

Fixpoint spaces (n : nat) : string :=
  match n with
  | O => ""
  | S n' => String " " (spaces n')
  end.

(** A width in a format verb pads on the left with spaces and never cuts. *)
Definition pad_left (width : nat) (s : string) : string :=
  spaces (width - String.length s) ++ s.

(** [fmt.Sprintf("%16x", v)] *)
Definition fmt_16x (v : Z) : string := pad_left 16 (fmt_x v).

(** [s] ends in [suffix]. *)
Definition has_suffix (suffix s : string) : bool :=
  String.eqb
    (String.substring (String.length s - String.length suffix)
                      (String.length suffix) s)
    suffix
  && (String.length suffix <=? String.length s)%nat.

(** The first character of a string is there and is neither of two given
    ones. *)
Definition starts_off (a b : ascii) (s : string) : Prop :=
  match s with
  | EmptyString => False
  | String c _ => c <> a /\ c <> b
  end.

(** ** Calls to the collaborators *)

Inductive Call : Type :=
(* etcd clientv3 and its DNS autoconfiguration *)
| etcd_NewFromURL (url : string)
| autoconf_DefaultEtcdClient
| Client_Grant (conn : Client) (ctx : Context) (ttl : Z)
| Client_KeepAlive (conn : Client) (ctx : Context) (id : LeaseID)
| Client_Put (conn : Client) (ctx : Context) (key val : string)
             (WithLease : LeaseID)
| Client_Delete (conn : Client) (ctx : Context) (key : string)
(* go-etcd *)
| etcd_NewClient (servers : list string)
| Client_AddChild (conn : Client) (key value : string) (ttl : Z)
| Client_Delete2 (conn : Client) (key : string) (recursive : bool)
(* net, net/http and the go statement *)
| net_Listen (network address : string)
| Listener_Close (l : Listener)
| http_Serve (l : Listener) (handler : HTTPHandler)
| go_consumeKeepaliveResponses (ch : Chan).

(** What each call hands back.  [KeepAlive] answers with the pair as Go
    returns it, because [initLease] stores the channel before it looks at
    the error. *)
Definition Resp (c : Call) : Type :=
  match c with
  | etcd_NewFromURL _ => result Client
  | autoconf_DefaultEtcdClient => result Client
  | Client_Grant _ _ _ => result LeaseGrantResponse
  | Client_KeepAlive _ _ _ => (Chan * error)%type
  | Client_Put _ _ _ _ _ => error
  | Client_Delete _ _ _ => error
  | etcd_NewClient _ => Client
  | Client_AddChild _ _ _ _ => result Response
  | Client_Delete2 _ _ _ => error
  | net_Listen _ _ => result Listener
  | Listener_Close _ => error
  | http_Serve _ _ => error
  | go_consumeKeepaliveResponses _ => unit
  end.

(** ** Programs over the calls *)

Inductive Prog (R : Type) : Type :=
| Ret (r : R)
| Do (c : Call) (k : Resp c -> Prog R).
Arguments Ret {R} r.
Arguments Do {R} c k.

Fixpoint bind {A B : Type} (p : Prog A) (f : A -> Prog B) : Prog B :=
  match p with
  | Ret a => f a
  | Do c k => Do c (fun x => bind (k x) f)
  end.

Definition call (c : Call) : Prog (Resp c) := Do c Ret.

#[global] Instance Prog_ret : MRet Prog := fun _ a => Ret a.
#[global] Instance Prog_bind : MBind Prog := fun _ _ f p => bind p f.

(** A handler answers every call and moves the world on. *)
Definition Handler (W : Type) : Type := forall c : Call, W -> Resp c * W.

(** The outcome of a run: the value returned, the world left behind and the
    calls issued, oldest first. *)
Record Run (R W : Type) : Type := mkRun {
  value : R;
  world : W;
  calls : list Call
}.
Arguments mkRun {R W} value world calls.
Arguments value {R W} r.
Arguments world {R W} r.
Arguments calls {R W} r.

Fixpoint run {W R : Type} (h : Handler W) (p : Prog R) (w : W) : Run R W :=
  match p with
  | Ret r => mkRun r w []
  | Do c k =>
      let '(x, w1) := h c w in
      let r := run h (k x) w1 in
      mkRun (value r) (world r) (c :: calls r)
  end.

(** ** The lease-keyed package: [exportedport.go] *)

Module Leased.

Record ServiceExporter : Type := mkServiceExporter {
  conn : Client;
  path : string;
  leaseID : LeaseID;
  keepaliveResponses : Chan
}.

(** [&ServiceExporter{conn: client}]: every other field at its zero value. *)
Definition new_ServiceExporter (client : Client) : ServiceExporter :=
  mkServiceExporter client "" 0 NilChan.

Definition set_keepaliveResponses (e : ServiceExporter) (ch : Chan)
  : ServiceExporter :=
  mkServiceExporter (conn e) (path e) (leaseID e) ch.

Definition set_leaseID (e : ServiceExporter) (id : LeaseID)
  : ServiceExporter :=
  mkServiceExporter (conn e) (path e) id (keepaliveResponses e).

Definition set_path (e : ServiceExporter) (p : string) : ServiceExporter :=
  mkServiceExporter (conn e) p (leaseID e) (keepaliveResponses e).

(** A method with receiver [e *ServiceExporter] returns its Go results
    together with the receiver as the method left it. *)
Definition initLease (e : ServiceExporter) (ctx : Context) (ttl : Z)
  : Prog (error * ServiceExporter) :=
  r ← call (Client_Grant (conn e) ctx ttl);
  match r with
  | Fail err => mret (Some err, e)
  | Ok lease =>
      '(ch, err) ← call (Client_KeepAlive (conn e) Background (ID lease));
      let e1 := set_keepaliveResponses e ch in
      match err with
      | Some _ => mret (err, e1)
      | None =>
          let e2 := set_leaseID e1 (ID lease) in
          _ ← call (go_consumeKeepaliveResponses (keepaliveResponses e2));
          mret (None, e2)
      end
  end.

(** The constructors return a [*ServiceExporter] and an [error]; the pointer is
    [None] when nil.  [return self, self.initLease(ctx, ttl)] hands back
    the pointer to the exporter as [initLease] left it. *)
Definition NewExporter (ctx : Context) (etcdURL : string) (ttl : Z)
  : Prog (option ServiceExporter * error) :=
  r ← call (etcd_NewFromURL etcdURL);
  match r with
  | Fail err => mret (None, Some err)
  | Ok client =>
      let self := new_ServiceExporter client in
      '(err, self1) ← initLease self ctx ttl;
      mret (Some self1, err)
  end.

Definition NewFromDefault (ctx : Context) (ttl : Z)
  : Prog (option ServiceExporter * error) :=
  r ← call autoconf_DefaultEtcdClient;
  match r with
  | Fail err => mret (None, Some err)
  | Ok client =>
      let self := new_ServiceExporter client in
      '(err, self1) ← initLease self ctx ttl;
      mret (Some self1, err)
  end.

Definition NewExporterFromClient (ctx : Context) (client : Client) (ttl : Z)
  : Prog (option ServiceExporter * error) :=
  let rv := new_ServiceExporter client in
  '(err, rv1) ← initLease rv ctx ttl;
  mret (Some rv1, err).

(** [fmt.Sprintf("/ns/service/%s/%16x", service, e.leaseID)] *)
Definition export_path (service : string) (id : LeaseID) : string :=
  "/ns/service/" ++ service ++ "/" ++ fmt_16x id.

(** The address handed to [net.Listen]. *)
Definition listen_address `{NetLib} (ip : string) : string :=
  match SplitHostPort ip with
  | None => JoinHostPort ip "0"
  | Some _ => ip
  end.

Definition NewExportedPort `{NetLib} (e : ServiceExporter) (ctx : Context)
    (network ip service : string)
  : Prog ((option Listener * error) * ServiceExporter) :=
  let hostport := listen_address ip in
  r ← call (net_Listen network hostport);
  match r with
  | Fail err => mret ((None, Some err), e)
  | Ok l =>
      let path := export_path service (leaseID e) in
      err ← call (Client_Put (conn e) ctx path (Listener_Addr l) (leaseID e));
      match err with
      | Some _ => mret ((None, err), e)
      | None => mret ((Some l, None), set_path e path)
      end
  end.

Definition NewExportedTLSPort `{NetLib} (e : ServiceExporter) (ctx : Context)
    (network ip servicename : string) (config : TLSConfig)
  : Prog ((option Listener * error) * ServiceExporter) :=
  '((l, err), e1) ← NewExportedPort e ctx network ip servicename;
  match err, l with
  | None, Some l0 => mret ((Some (TLSListener l0 config), None), e1)
  | _, _ => mret ((None, err), e1)
  end.

Definition UnexportPort (e : ServiceExporter) (ctx : Context)
  : Prog (error * ServiceExporter) :=
  if (String.length (path e) =? 0)%nat then mret (None, e)
  else
    err ← call (Client_Delete (conn e) ctx (path e));
    match err with
    | Some _ => mret (err, e)
    | None => mret (None, e)
    end.

Definition ListenAndServeNamedHTTP `{NetLib} (e : ServiceExporter)
    (ctx : Context) (servicename addr : string) (handler : HTTPHandler)
  : Prog (error * ServiceExporter) :=
  '((l, err), e1) ← NewExportedPort e ctx "tcp" addr servicename;
  match err, l with
  | None, Some l0 =>
      err1 ← call (http_Serve l0 handler);
      mret (err1, e1)
  | _, _ => mret (err, e1)
  end.

End Leased.

(** ** The go-etcd package: the variant without leases, with
    [exportedhttpservice.go] *)

Module Legacy.

Record ServiceExporter : Type := mkServiceExporter {
  conn : Client;
  path : string
}.

Definition set_path (self : ServiceExporter) (p : string) : ServiceExporter :=
  mkServiceExporter (conn self) p.

Definition NewExporter (servers : list string) : Prog ServiceExporter :=
  client ← call (etcd_NewClient servers);
  mret (mkServiceExporter client "").

(** [fmt.Sprintf("/ns/service/%s", servicename)] *)
Definition export_path (servicename : string) : string :=
  "/ns/service/" ++ servicename.

(** The address handed to [net.Listen]: the port is always ["0"]. *)
Definition listen_address `{NetLib} (ip : string) : string :=
  let host :=
    match SplitHostPort ip with
    | None => ip
    | Some (host, _) => host
    end in
  JoinHostPort host "0".

Definition NewExportedPort `{NetLib} (self : ServiceExporter)
    (network ip servicename : string)
  : Prog ((option Listener * error) * ServiceExporter) :=
  let path := export_path servicename in
  let hostport := listen_address ip in
  r ← call (net_Listen network hostport);
  match r with
  | Fail err => mret ((None, Some err), self)
  | Ok l =>
      r1 ← call (Client_AddChild (conn self) path hostport 0);
      match r1 with
      | Fail err => mret ((None, Some err), self)
      | Ok resp =>
          match Node_ resp with
          | Some node => mret ((Some l, None), set_path self (Key node))
          | None => mret ((Some l, None), self)
          end
      end
  end.

Definition NewExportedTLSPort `{NetLib} (self : ServiceExporter)
    (network ip servicename : string) (config : TLSConfig)
  : Prog ((option Listener * error) * ServiceExporter) :=
  '((l, err), self1) ← NewExportedPort self network ip servicename;
  match err, l with
  | None, Some l0 => mret ((Some (TLSListener l0 config), None), self1)
  | _, _ => mret ((None, err), self1)
  end.

Definition UnexportPort (self : ServiceExporter)
  : Prog (error * ServiceExporter) :=
  if (String.length (path self) =? 0)%nat then mret (None, self)
  else
    err ← call (Client_Delete2 (conn self) (path self) false);
    match err with
    | Some _ => mret (err, self)
    | None => mret (None, self)
    end.

Definition ListenAndServeNamedHTTP `{NetLib} (self : ServiceExporter)
    (servicename addr : string) (handler : HTTPHandler)
  : Prog (error * ServiceExporter) :=
  '((l, err), self1) ← NewExportedPort self "tcp" addr servicename;
  match err, l with
  | None, Some l0 =>
      err1 ← call (http_Serve l0 handler);
      mret (err1, self1)
  | _, _ => mret (err, self1)
  end.

End Legacy.

(** ** A life of an exporter

    What a caller can do with a lease-keyed exporter once it holds one, and
    the program that does a list of such things in order. *)

Inductive Op : Type :=
| OpExport (ctx : Context) (network ip service : string)
| OpExportTLS (ctx : Context) (network ip service : string)
              (config : TLSConfig)
| OpServeHTTP (ctx : Context) (servicename addr : string)
              (handler : HTTPHandler)
| OpUnexport (ctx : Context).

Definition do_op `{NetLib} (e : Leased.ServiceExporter) (o : Op)
  : Prog Leased.ServiceExporter :=
  match o with
  | OpExport ctx network ip service =>
      '(_, e1) ← Leased.NewExportedPort e ctx network ip service; mret e1
  | OpExportTLS ctx network ip service config =>
      '(_, e1) ← Leased.NewExportedTLSPort e ctx network ip service config;
      mret e1
  | OpServeHTTP ctx servicename addr handler =>
      '(_, e1) ← Leased.ListenAndServeNamedHTTP e ctx servicename addr handler;
      mret e1
  | OpUnexport ctx =>
      '(_, e1) ← Leased.UnexportPort e ctx; mret e1
  end.

Fixpoint do_ops `{NetLib} (e : Leased.ServiceExporter) (os : list Op)
  : Prog Leased.ServiceExporter :=
  match os with
  | [] => mret e
  | o :: os' => e1 ← do_op e o; do_ops e1 os'
  end.

(** Two exports of one service name, one after the other, on one
    exporter. *)
Definition export_twice `{NetLib} (e : Leased.ServiceExporter) (ctx : Context)
    (network ip1 ip2 service : string)
  : Prog ((option Listener * error) * (option Listener * error)
          * Leased.ServiceExporter) :=
  '(r1, e1) ← Leased.NewExportedPort e ctx network ip1 service;
  '(r2, e2) ← Leased.NewExportedPort e1 ctx network ip2 service;
  mret (r1, r2, e2).

(** Two unexports with no export in between. *)
Definition unexport_twice (e : Leased.ServiceExporter) (ctx : Context)
  : Prog (error * error * Leased.ServiceExporter) :=
  '(err1, e1) ← Leased.UnexportPort e ctx;
  '(err2, e2) ← Leased.UnexportPort e1 ctx;
  mret (err1, err2, e2).

Definition legacy_unexport_twice (self : Legacy.ServiceExporter)
  : Prog (error * error * Legacy.ServiceExporter) :=
  '(err1, self1) ← Legacy.UnexportPort self;
  '(err2, self2) ← Legacy.UnexportPort self1;
  mret (err1, err2, self2).

(** The key a call writes, when the call is a [Put]. *)
Definition put_key (c : Call) : option string :=
  match c with
  | Client_Put _ _ key _ _ => Some key
  | _ => None
  end.

(** The value a call writes, when the call is a [Put]. *)
Definition put_value (c : Call) : option string :=
  match c with
  | Client_Put _ _ _ val _ => Some val
  | _ => None
  end.

(** The parts of what an exporting method returns: the listener, the error
    and the receiver as the method left it. *)
Definition got_listener {E : Type} (v : (option Listener * error) * E)
  : option Listener := fst (fst v).

Definition got_error {E : Type} (v : (option Listener * error) * E)
  : error := snd (fst v).

Definition receiver {E : Type} (v : (option Listener * error) * E) : E :=
  snd v.

(** The lease a call writes under, when the call is a [Put]. *)
Definition put_lease (c : Call) : option LeaseID :=
  match c with
  | Client_Put _ _ _ _ lease => Some lease
  | _ => None
  end.

(** The calls that act on a lease. *)
Definition is_lease_call (c : Call) : bool :=
  match c with
  | Client_Grant _ _ _ | Client_KeepAlive _ _ _ => true
  | _ => false
  end.

Definition is_listen (c : Call) : bool :=
  match c with
  | net_Listen _ _ => true
  | _ => false
  end.

Definition is_close (c : Call) : bool :=
  match c with
  | Listener_Close _ => true
  | _ => false
  end.

(** ** An export followed by an unexport *)

(** The key a call deletes, when the call is a delete of either client. *)
Definition delete_key (c : Call) : option string :=
  match c with
  | Client_Delete _ _ key => Some key
  | Client_Delete2 _ key _ => Some key
  | _ => None
  end.

(** The service an operation registers, when it exports. *)
Definition op_service (o : Op) : option string :=
  match o with
  | OpExport _ _ _ service => Some service
  | OpExportTLS _ _ _ service _ => Some service
  | OpServeHTTP _ servicename _ _ => Some servicename
  | OpUnexport _ => None
  end.

Definition export_then_unexport `{NetLib} (e : Leased.ServiceExporter)
    (ctx : Context) (network ip service : string) (ctx' : Context)
  : Prog ((option Listener * error) * error * Leased.ServiceExporter) :=
  '(r1, e1) ← Leased.NewExportedPort e ctx network ip service;
  '(err, e2) ← Leased.UnexportPort e1 ctx';
  mret (r1, err, e2).

Definition export_two_then_unexport `{NetLib} (e : Leased.ServiceExporter)
    (ctx : Context) (network ip1 service1 ip2 service2 : string)
  : Prog ((option Listener * error) * (option Listener * error) * error
          * Leased.ServiceExporter) :=
  '(r1, e1) ← Leased.NewExportedPort e ctx network ip1 service1;
  '(r2, e2) ← Leased.NewExportedPort e1 ctx network ip2 service2;
  '(err, e3) ← Leased.UnexportPort e2 ctx;
  mret (r1, r2, err, e3).

Definition legacy_export_then_unexport `{NetLib}
    (self : Legacy.ServiceExporter) (network ip servicename : string)
  : Prog ((option Listener * error) * error * Legacy.ServiceExporter) :=
  '(r1, self1) ← Legacy.NewExportedPort self network ip servicename;
  '(err, self2) ← Legacy.UnexportPort self1;
  mret (r1, err, self2).

(** ** Go's [net.SplitHostPort] and [net.JoinHostPort]

    The library functions as Go defines them, for running the package on
    concrete addresses. *)

Module GoNet.

(** [bytealg.IndexByteString] *)
Fixpoint IndexByte (s : string) (c : ascii) : option nat :=
  match s with
  | EmptyString => None
  | String a s' =>
      if Ascii.eqb a c then Some O else S <$> IndexByte s' c
  end.

(** [bytealg.LastIndexByteString] *)
Fixpoint LastIndexByte (s : string) (c : ascii) : option nat :=
  match s with
  | EmptyString => None
  | String a s' =>
      match LastIndexByte s' c with
      | Some i => Some (S i)
      | None => if Ascii.eqb a c then Some O else None
      end
  end.

(** [bytealg.IndexByteString(s, c) >= 0] *)
Definition contains (s : string) (c : ascii) : bool :=
  match IndexByte s c with
  | Some _ => true
  | None => false
  end.

(** [s[n:]] *)
Definition from (n : nat) (s : string) : string :=
  String.substring n (String.length s - n) s.

Definition split_host_port (hostport : string) : option (string * string) :=
  match LastIndexByte hostport ":" with
  | None => None
  | Some i =>
      let finish (host : string) (j k : nat) :=
        if contains (from j hostport) "[" then None
        else if contains (from k hostport) "]" then None
        else Some (host, from (i + 1) hostport) in
      match hostport with
      | String "[" _ =>
          match IndexByte hostport "]" with
          | None => None
          | Some end_ =>
              if (end_ + 1 =? String.length hostport)%nat then None
              else if (end_ + 1 =? i)%nat then
                finish (String.substring 1 (end_ - 1) hostport) 1%nat
                       (end_ + 1)%nat
              else None
          end
      | _ =>
          let host := String.substring 0 i hostport in
          if contains host ":" then None else finish host O O
      end
  end.

Definition join_host_port (host port : string) : string :=
  if contains host ":" then "[" ++ host ++ "]:" ++ port
  else host ++ ":" ++ port.

#[global] Instance go_net : NetLib := {
  SplitHostPort := split_host_port;
  JoinHostPort := join_host_port
}.

End GoNet.

(** ** A store and a platform to run against

    An in-memory stand-in for the collaborators: the keyspace of the store
    as a finite map from keys to a value and the lease it is attached to
    ([0]: none), the leases granted, the sockets that are open, and a
    switch [down] that makes chosen calls fail.  Puts insert, deletes of
    the v3 client succeed whether or not the key is there, the v2 client
    reports a missing key, and a request for port ["0"] is answered with a
    port of the platform's choice. *)

Module Sim.

Record World : Type := mkWorld {
  kv : gmap string (string * LeaseID);
  leases : list LeaseID;
  sockets : list Listener;
  drained : list Chan;
  counter : N;
  down : Call -> bool
}.

Definition tick (w : World) : World :=
  mkWorld (kv w) (leases w) (sockets w) (drained w) (counter w + 1) (down w).

Definition set_kv (w : World) (m : gmap string (string * LeaseID)) : World :=
  mkWorld m (leases w) (sockets w) (drained w) (counter w) (down w).

Definition add_lease (w : World) (id : LeaseID) : World :=
  mkWorld (kv w) (id :: leases w) (sockets w) (drained w) (counter w) (down w).

Definition set_sockets (w : World) (ls : list Listener) : World :=
  mkWorld (kv w) (leases w) ls (drained w) (counter w) (down w).

Definition add_drained (w : World) (ch : Chan) : World :=
  mkWorld (kv w) (leases w) (sockets w) (ch :: drained w) (counter w) (down w).

Definition set_down (w : World) (f : Call -> bool) : World :=
  mkWorld (kv w) (leases w) (sockets w) (drained w) (counter w) f.

Definition lease_base : Z := 0x694d5765fc715000.
Definition port_base : N := 49152.

Definition unavailable : GoError := ErrMsg "unavailable".

Definition is_open (w : World) (fd : N) : bool :=
  bool_decide (fd ∈ Listener_fd <$> sockets w).

Definition bound (w : World) (addr : string) : bool :=
  bool_decide (addr ∈ Listener_Addr <$> sockets w).

Definition listen (address : string) (w : World) : result Listener * World :=
  match GoNet.split_host_port address with
  | None => (Fail (ErrMsg "missing port in address"), w)
  | Some (host, port) =>
      let port1 :=
        if String.eqb port "0" then pretty (port_base + counter w)%N
        else port in
      let addr := GoNet.join_host_port host port1 in
      if bound w addr then (Fail (ErrMsg "address already in use"), w)
      else
        let l := NetListener (counter w) addr in
        (Ok l, tick (set_sockets w (l :: sockets w)))
  end.

Definition close (l : Listener) (w : World) : error * World :=
  let keep (l' : Listener) :=
    negb (bool_decide (Listener_fd l' = Listener_fd l)) in
  (None, set_sockets w (List.filter keep (sockets w))).

Definition delete2 (key : string) (w : World) : error * World :=
  match kv w !! key with
  | None => (Some (ErrMsg "100: Key not found"), w)
  | Some _ => (None, set_kv w (delete key (kv w)))
  end.

Definition add_child (key value : string) (w : World)
  : result Response * World :=
  let child := key ++ "/" ++ pretty (counter w) in
  (Ok {| Node_ := Some {| Key := child |} |},
   tick (set_kv w (<[child := (value, 0)]> (kv w)))).

Definition answer (c : Call) : World -> Resp c * World :=
  match c as c0 return World -> Resp c0 * World with
  | etcd_NewFromURL _ => fun w => (Ok (ClientRef (counter w)), tick w)
  | autoconf_DefaultEtcdClient => fun w => (Ok (ClientRef (counter w)), tick w)
  | Client_Grant _ _ _ => fun w =>
      let id := lease_base + Z.of_N (counter w) in
      (Ok {| ID := id |}, tick (add_lease w id))
  | Client_KeepAlive _ _ _ => fun w => ((ChanRef (counter w), None), tick w)
  | Client_Put _ _ key val lease => fun w =>
      (None, set_kv w (<[key := (val, lease)]> (kv w)))
  | Client_Delete _ _ key => fun w => (None, set_kv w (delete key (kv w)))
  | etcd_NewClient _ => fun w => (ClientRef (counter w), tick w)
  | Client_AddChild _ key value _ => add_child key value
  | Client_Delete2 _ key _ => delete2 key
  | net_Listen _ address => listen address
  | Listener_Close l => close l
  | http_Serve _ _ => fun w => (Some (ErrMsg "http: Server closed"), w)
  | go_consumeKeepaliveResponses ch => fun w => (tt, add_drained w ch)
  end.

(** What a call that is [down] hands back. *)
Definition refuse (c : Call) : Resp c :=
  match c as c0 return Resp c0 with
  | etcd_NewFromURL _ => Fail unavailable
  | autoconf_DefaultEtcdClient => Fail unavailable
  | Client_Grant _ _ _ => Fail unavailable
  | Client_KeepAlive _ _ _ => (NilChan, Some unavailable)
  | Client_Put _ _ _ _ _ => Some unavailable
  | Client_Delete _ _ _ => Some unavailable
  | etcd_NewClient _ => ClientRef 0
  | Client_AddChild _ _ _ _ => Fail unavailable
  | Client_Delete2 _ _ _ => Some unavailable
  | net_Listen _ _ => Fail unavailable
  | Listener_Close _ => Some unavailable
  | http_Serve _ _ => Some unavailable
  | go_consumeKeepaliveResponses _ => tt
  end.

Definition sim : Handler World :=
  fun c w => if down w c then (refuse c, w) else answer c w.

(** Nothing stored, nothing open, everything reachable. *)
Definition fresh : World := mkWorld ∅ [] [] [] 1 (fun _ => false).

Definition grant_down (c : Call) : bool :=
  match c with Client_Grant _ _ _ => true | _ => false end.

Definition keepalive_down (c : Call) : bool :=
  match c with Client_KeepAlive _ _ _ => true | _ => false end.

Definition listen_down (c : Call) : bool :=
  match c with net_Listen _ _ => true | _ => false end.

Definition put_down (c : Call) : bool :=
  match c with
  | Client_Put _ _ _ _ _ | Client_AddChild _ _ _ _ => true
  | _ => false
  end.

(** Exporters to run: one that has its lease and has published nothing,
    the same after an export of service [foo], and their go-etcd
    counterparts. *)
Definition client0 : Client := ClientRef 0.
Definition ctx0 : Context := CallerContext 7.

Definition unpublished : Leased.ServiceExporter :=
  Leased.mkServiceExporter client0 "" (lease_base + 1) (ChanRef 2).

Definition published : Leased.ServiceExporter :=
  Leased.set_path unpublished (Leased.export_path "foo" (lease_base + 1)).

Definition legacy_unpublished : Legacy.ServiceExporter :=
  Legacy.mkServiceExporter client0 "".

Definition legacy_published : Legacy.ServiceExporter :=
  Legacy.mkServiceExporter client0 "/ns/service/foo/2".

End Sim.

(** * Properties *)

(** ** Running programs *)

Lemma run_bind {W A B : Type} (h : Handler W) (p : Prog A) (f : A -> Prog B)
    (w : W) :
  run h (bind p f) w =
  let r := run h p w in
  let r' := run h (f (value r)) (world r) in
  mkRun (value r') (world r') (calls r ++ calls r').
Proof.
  revert w. induction p as [a | c k IH]; intros w; simpl.
  - by destruct (run h (f a) w).
  - destruct (h c w) as [x w1]. rewrite IH. reflexivity.
Qed.

Lemma length_zero_empty (s : string) :
  (String.length s =? 0)%nat = true <-> s = "".
Proof.
  destruct s; simpl; split; intros Hs; try done.
Qed.

(** Unfold the methods down to calls and continuations. *)
Ltac to_calls :=
  unfold Leased.NewExporter, Leased.NewFromDefault,
    Leased.NewExporterFromClient, Leased.initLease,
    Leased.NewExportedTLSPort, Leased.ListenAndServeNamedHTTP,
    Leased.NewExportedPort, Leased.UnexportPort,
    Legacy.NewExportedTLSPort, Legacy.ListenAndServeNamedHTTP,
    Legacy.NewExportedPort, Legacy.UnexportPort,
    call, mbind, Prog_bind, mret, Prog_ret in *;
  cbn [bind run value world calls] in *.

(** Take the handler's answer to the call that is next. *)
Ltac answer h :=
  match goal with
  | |- context [h ?c ?w] =>
      let x := fresh "x" in
      let w' := fresh "w" in
      let E := fresh "E" in
      destruct (h c w) as [x w'] eqn:E; cbn [Resp] in x;
      cbn [bind run value world calls fst snd]
  end.

(** ** Unexport *)

Lemma Leased_UnexportPort_empty {W : Type} (h : Handler W) (w : W)
    (e : Leased.ServiceExporter) (ctx : Context) :
  Leased.path e = "" ->
  run h (Leased.UnexportPort e ctx) w = mkRun (None, e) w [].
Proof.
  intros Hp. unfold Leased.UnexportPort. rewrite Hp. reflexivity.
Qed.

Lemma Leased_UnexportPort_nonempty {W : Type} (h : Handler W) (w : W)
    (e : Leased.ServiceExporter) (ctx : Context) :
  Leased.path e <> "" ->
  run h (Leased.UnexportPort e ctx) w =
  let a := h (Client_Delete (Leased.conn e) ctx (Leased.path e)) w in
  mkRun (fst a, e) (snd a)
        [Client_Delete (Leased.conn e) ctx (Leased.path e)].
Proof.
  intros Hp. unfold Leased.UnexportPort.
  destruct (String.length (Leased.path e) =? 0)%nat eqn:Hl.
  - apply length_zero_empty in Hl. contradiction.
  - to_calls. answer h. by destruct x.
Qed.

Lemma Legacy_UnexportPort_empty {W : Type} (h : Handler W) (w : W)
    (self : Legacy.ServiceExporter) :
  Legacy.path self = "" ->
  run h (Legacy.UnexportPort self) w = mkRun (None, self) w [].
Proof.
  intros Hp. unfold Legacy.UnexportPort. rewrite Hp. reflexivity.
Qed.

Lemma Legacy_UnexportPort_nonempty {W : Type} (h : Handler W) (w : W)
    (self : Legacy.ServiceExporter) :
  Legacy.path self <> "" ->
  run h (Legacy.UnexportPort self) w =
  let a := h (Client_Delete2 (Legacy.conn self) (Legacy.path self) false) w in
  mkRun (fst a, self) (snd a)
        [Client_Delete2 (Legacy.conn self) (Legacy.path self) false].
Proof.
  intros Hp. unfold Legacy.UnexportPort.
  destruct (String.length (Legacy.path self) =? 0)%nat eqn:Hl.
  - apply length_zero_empty in Hl. contradiction.
  - to_calls. answer h. by destruct x.
Qed.

(** C6. [UnexportPort] with an empty last published path returns nil,
    issues no call at all and leaves the world and the exporter as they
    were.  With a non-empty path it issues exactly one call, the delete of
    that path on the exporter's connection, returns what the store answered
    and leaves every field of the exporter, the lease identifier and the
    keepalive stream among them, as it was: no call on the lease is made.
    This holds for the lease-keyed package and for the go-etcd one. *)
Theorem UnexportPort_deletes_last_path {W : Type} (h : Handler W) (w : W) :
  (forall (e : Leased.ServiceExporter) (ctx : Context),
     let r := run h (Leased.UnexportPort e ctx) w in
     (Leased.path e = "" ->
        value r = (None, e) /\ calls r = [] /\ world r = w) /\
     (Leased.path e <> "" ->
        calls r = [Client_Delete (Leased.conn e) ctx (Leased.path e)] /\
        snd (value r) = e /\
        fst (value r) =
          fst (h (Client_Delete (Leased.conn e) ctx (Leased.path e)) w) /\
        forallb (fun c => negb (is_lease_call c)) (calls r) = true)) /\
  (forall (self : Legacy.ServiceExporter),
     let r := run h (Legacy.UnexportPort self) w in
     (Legacy.path self = "" ->
        value r = (None, self) /\ calls r = [] /\ world r = w) /\
     (Legacy.path self <> "" ->
        calls r =
          [Client_Delete2 (Legacy.conn self) (Legacy.path self) false] /\
        snd (value r) = self /\
        fst (value r) =
          fst (h (Client_Delete2 (Legacy.conn self) (Legacy.path self) false)
                 w))).
Proof.
  split.
  - intros e ctx r. subst r. split; intros Hp.
    + by rewrite Leased_UnexportPort_empty.
    + by rewrite Leased_UnexportPort_nonempty.
  - intros self r. subst r. split; intros Hp.
    + by rewrite Legacy_UnexportPort_empty.
    + by rewrite Legacy_UnexportPort_nonempty.
Qed.

Lemma UnexportPort_deletes_last_path_witness :
  (let r := run Sim.sim (Leased.UnexportPort Sim.unpublished Sim.ctx0)
                Sim.fresh in
   value r = (None, Sim.unpublished) /\ calls r = [] /\
   world r = Sim.fresh) /\
  (let r := run Sim.sim (Leased.UnexportPort Sim.published Sim.ctx0)
                Sim.fresh in
   calls r =
     [Client_Delete Sim.client0 Sim.ctx0 "/ns/service/foo/694d5765fc715001"]
   /\ snd (value r) = Sim.published /\ fst (value r) = None) /\
  (let r := run Sim.sim (Legacy.UnexportPort Sim.legacy_unpublished)
                Sim.fresh in
   value r = (None, Sim.legacy_unpublished) /\ calls r = []) /\
  (let r := run Sim.sim (Legacy.UnexportPort Sim.legacy_published)
                Sim.fresh in
   calls r = [Client_Delete2 Sim.client0 "/ns/service/foo/2" false] /\
   snd (value r) = Sim.legacy_published).
Proof.
  destruct (UnexportPort_deletes_last_path Sim.sim Sim.fresh) as [HL HG].
  split; [| split; [| split]].
  - exact (proj1 (HL Sim.unpublished Sim.ctx0) eq_refl).
  - destruct (proj2 (HL Sim.published Sim.ctx0)) as (H1 & H2 & H3 & _);
      [discriminate |].
    exact (conj H1 (conj H2 H3)).
  - destruct (proj1 (HG Sim.legacy_unpublished) eq_refl) as (H1 & H2 & _).
    exact (conj H1 H2).
  - destruct (proj2 (HG Sim.legacy_published)) as (H1 & H2 & _);
      [discriminate |].
    exact (conj H1 H2).
Defined.

(** The stand-in store's answers to a delete that is not switched off. *)
Lemma sim_delete_up (conn : Client) (ctx : Context) (key : string)
    (w : Sim.World) :
  Sim.down w (Client_Delete conn ctx key) = false ->
  Sim.sim (Client_Delete conn ctx key) w =
    (None, Sim.set_kv w (delete key (Sim.kv w))).
Proof. intros Hd. unfold Sim.sim. by rewrite Hd. Qed.

Lemma sim_delete2_up (conn : Client) (key : string) (recursive : bool)
    (w : Sim.World) :
  Sim.down w (Client_Delete2 conn key recursive) = false ->
  Sim.sim (Client_Delete2 conn key recursive) w =
    match Sim.kv w !! key with
    | None => (Some (ErrMsg "100: Key not found"), w)
    | Some _ => (None, Sim.set_kv w (delete key (Sim.kv w)))
    end.
Proof. intros Hd. unfold Sim.sim. by rewrite Hd. Qed.

(** C10, as the code has it.  [UnexportPort] never writes the last
    published path: whatever the store answers, the exporter comes back as
    it went in.  So a second unexport with no export in between is not a
    no-op: it issues the same delete of the same key again, and returns
    what the store answers to that second delete.  In a store whose delete
    of a missing key succeeds, as the stand-in for the v3 client, both
    unexports of the lease-keyed package report success.  In a store whose
    delete of a missing key is an error, as the stand-in for the go-etcd
    client, the second unexport after a successful first one returns that
    error. *)
Theorem UnexportPort_keeps_path {W : Type} (h : Handler W) (w : W) :
  (forall (e : Leased.ServiceExporter) (ctx : Context),
     snd (value (run h (Leased.UnexportPort e ctx) w)) = e) /\
  (forall (e : Leased.ServiceExporter) (ctx : Context),
     Leased.path e <> "" ->
     let d := Client_Delete (Leased.conn e) ctx (Leased.path e) in
     let r := run h (unexport_twice e ctx) w in
     calls r = [d; d] /\
     snd (value r) = e /\
     fst (fst (value r)) = fst (h d w) /\
     snd (fst (value r)) = fst (h d (snd (h d w)))) /\
  (forall (self : Legacy.ServiceExporter),
     snd (value (run h (Legacy.UnexportPort self) w)) = self) /\
  (forall (self : Legacy.ServiceExporter),
     Legacy.path self <> "" ->
     let d := Client_Delete2 (Legacy.conn self) (Legacy.path self) false in
     let r := run h (legacy_unexport_twice self) w in
     calls r = [d; d] /\
     snd (value r) = self /\
     fst (fst (value r)) = fst (h d w) /\
     snd (fst (value r)) = fst (h d (snd (h d w)))) /\
  (forall (ws : Sim.World) (e : Leased.ServiceExporter) (ctx : Context),
     Leased.path e <> "" ->
     Sim.down ws (Client_Delete (Leased.conn e) ctx (Leased.path e)) = false ->
     let r := run Sim.sim (unexport_twice e ctx) ws in
     fst (value r) = (None, None) /\
     Sim.kv (world r) = delete (Leased.path e) (Sim.kv ws)) /\
  (forall (ws : Sim.World) (self : Legacy.ServiceExporter),
     Legacy.path self <> "" ->
     Sim.down ws (Client_Delete2 (Legacy.conn self) (Legacy.path self) false)
       = false ->
     is_Some (Sim.kv ws !! Legacy.path self) ->
     let r := run Sim.sim (legacy_unexport_twice self) ws in
     fst (value r) = (None, Some (ErrMsg "100: Key not found")) /\
     Sim.kv (world r) = delete (Legacy.path self) (Sim.kv ws)).
Proof.
  assert (HL : forall (V : Type) (g : Handler V) (v : V)
                      (e : Leased.ServiceExporter) (ctx : Context),
             Leased.path e <> "" ->
             let d := Client_Delete (Leased.conn e) ctx (Leased.path e) in
             run g (unexport_twice e ctx) v =
             mkRun (fst (g d v), fst (g d (snd (g d v))), e)
                   (snd (g d (snd (g d v)))) [d; d]).
  { intros V g v e ctx Hp d. subst d.
    unfold unexport_twice, mbind, Prog_bind.
    rewrite run_bind, Leased_UnexportPort_nonempty by done. cbn.
    rewrite run_bind, Leased_UnexportPort_nonempty by done. cbn.
    done. }
  assert (HG : forall (V : Type) (g : Handler V) (v : V)
                      (self : Legacy.ServiceExporter),
             Legacy.path self <> "" ->
             let d := Client_Delete2 (Legacy.conn self) (Legacy.path self)
                        false in
             run g (legacy_unexport_twice self) v =
             mkRun (fst (g d v), fst (g d (snd (g d v))), self)
                   (snd (g d (snd (g d v)))) [d; d]).
  { intros V g v self Hp d. subst d.
    unfold legacy_unexport_twice, mbind, Prog_bind.
    rewrite run_bind, Legacy_UnexportPort_nonempty by done. cbn.
    rewrite run_bind, Legacy_UnexportPort_nonempty by done. cbn.
    done. }
  split; [| split; [| split; [| split; [| split]]]].
  - intros e ctx. destruct (decide (Leased.path e = "")) as [Hp | Hp].
    + by rewrite Leased_UnexportPort_empty.
    + by rewrite Leased_UnexportPort_nonempty.
  - intros e ctx Hp d r. subst d r. by rewrite HL.
  - intros self. destruct (decide (Legacy.path self = "")) as [Hp | Hp].
    + by rewrite Legacy_UnexportPort_empty.
    + by rewrite Legacy_UnexportPort_nonempty.
  - intros self Hp d r. subst d r. by rewrite HG.
  - intros ws e ctx Hp Hd r. subst r. rewrite HL by done. cbn zeta.
    rewrite (sim_delete_up _ _ _ ws Hd). cbn [fst snd value world].
    rewrite sim_delete_up by exact Hd. cbn [fst snd Sim.kv Sim.set_kv].
    by rewrite delete_delete_eq.
  - intros ws self Hp Hd [v Hv] r. subst r. rewrite HG by done. cbn zeta.
    rewrite (sim_delete2_up _ _ _ ws Hd), Hv. cbn [fst snd value world].
    rewrite sim_delete2_up by exact Hd. cbn [Sim.kv Sim.set_kv].
    by rewrite lookup_delete_eq.
Qed.

Lemma UnexportPort_keeps_path_witness :
  (let r := run Sim.sim (unexport_twice Sim.published Sim.ctx0) Sim.fresh in
   calls r =
     [Client_Delete Sim.client0 Sim.ctx0 "/ns/service/foo/694d5765fc715001";
      Client_Delete Sim.client0 Sim.ctx0 "/ns/service/foo/694d5765fc715001"]
   /\ snd (value r) = Sim.published
   /\ fst (fst (value r)) = None
   /\ snd (fst (value r)) = None) /\
  (let exported :=
     run Sim.sim
       (Legacy.NewExportedPort Sim.legacy_unpublished "tcp" "127.0.0.1" "foo")
       Sim.fresh in
   let r := run Sim.sim (legacy_unexport_twice Sim.legacy_published)
                (world exported) in
   receiver (value exported) = Sim.legacy_published /\
   calls r =
     [Client_Delete2 Sim.client0 "/ns/service/foo/2" false;
      Client_Delete2 Sim.client0 "/ns/service/foo/2" false]
   /\ snd (value r) = Sim.legacy_published
   /\ fst (fst (value r)) = None
   /\ snd (fst (value r)) = Some (ErrMsg "100: Key not found")) /\
  (let exported :=
     run Sim.sim
       (Leased.NewExportedPort Sim.unpublished Sim.ctx0 "tcp" "127.0.0.1"
          "foo") Sim.fresh in
   let r := run Sim.sim (unexport_twice Sim.published Sim.ctx0)
                (world exported) in
   receiver (value exported) = Sim.published /\
   fst (value r) = (None, None) /\
   Sim.kv (world r) = ∅) /\
  (let exported :=
     run Sim.sim
       (Legacy.NewExportedPort Sim.legacy_unpublished "tcp" "127.0.0.1" "foo")
       Sim.fresh in
   let r := run Sim.sim (legacy_unexport_twice Sim.legacy_published)
                (world exported) in
   fst (value r) = (None, Some (ErrMsg "100: Key not found")) /\
   Sim.kv (world r) = ∅).
Proof.
  split; [| split; [| split]].
  - destruct (UnexportPort_keeps_path Sim.sim Sim.fresh)
      as (_ & HL & _).
    exact (HL Sim.published Sim.ctx0 ltac:(discriminate)).
  - cbn zeta. split; [reflexivity |].
    destruct (UnexportPort_keeps_path Sim.sim
                (world (run Sim.sim
                          (Legacy.NewExportedPort Sim.legacy_unpublished "tcp"
                             "127.0.0.1" "foo") Sim.fresh)))
      as (_ & _ & _ & HG & _).
    exact (HG Sim.legacy_published ltac:(discriminate)).
  - cbn zeta. split; [reflexivity |].
    destruct (UnexportPort_keeps_path Sim.sim Sim.fresh)
      as (_ & _ & _ & _ & HS & _).
    destruct (HS (world (run Sim.sim
                           (Leased.NewExportedPort Sim.unpublished Sim.ctx0
                              "tcp" "127.0.0.1" "foo") Sim.fresh))
                 Sim.published Sim.ctx0) as [H1 H2];
      [discriminate | reflexivity |].
    split; [exact H1 |]. etrans; [exact H2 |]. vm_compute. reflexivity.
  - cbn zeta.
    destruct (UnexportPort_keeps_path Sim.sim Sim.fresh)
      as (_ & _ & _ & _ & _ & HS).
    destruct (HS (world (run Sim.sim
                           (Legacy.NewExportedPort Sim.legacy_unpublished
                              "tcp" "127.0.0.1" "foo") Sim.fresh))
                 Sim.legacy_published) as [H1 H2];
      [discriminate | reflexivity | vm_compute; eauto |].
    split; [exact H1 |]. etrans; [exact H2 |]. vm_compute. reflexivity.
Defined.

(** C10 as stated fails on the go-etcd package.  After an export that
    registered the key, the first unexport deletes it and reports success;
    the second unexport, with no export in between, issues the same delete
    and returns the store's error for the missing key, not success. *)
Lemma legacy_second_unexport_reports_error :
  let exported :=
    run Sim.sim
      (Legacy.NewExportedPort Sim.legacy_unpublished "tcp" "127.0.0.1" "foo")
      Sim.fresh in
  let self := receiver (value exported) in
  let r := run Sim.sim (legacy_unexport_twice self) (world exported) in
  got_error (value exported) = None /\
  Legacy.path self = "/ns/service/foo/2" /\
  Sim.kv (world exported) !! "/ns/service/foo/2" = Some ("127.0.0.1:0", 0) /\
  calls r =
    [Client_Delete2 Sim.client0 "/ns/service/foo/2" false;
     Client_Delete2 Sim.client0 "/ns/service/foo/2" false] /\
  fst (fst (value r)) = None /\
  snd (fst (value r)) = Some (ErrMsg "100: Key not found") /\
  Legacy.path (snd (value r)) = "/ns/service/foo/2".
Proof. vm_compute. repeat split. Qed.

(** ** Export *)

(** What a run of the lease-keyed [NewExportedPort] comes to, by the answers
    of the platform and of the store. *)
Lemma Leased_NewExportedPort_run `{NetLib} {W : Type} (h : Handler W) (w : W)
    (e : Leased.ServiceExporter) (ctx : Context)
    (network ip service : string) :
  run h (Leased.NewExportedPort e ctx network ip service) w =
  let listen := net_Listen network (Leased.listen_address ip) in
  let a := h listen w in
  match fst a with
  | Fail err => mkRun ((None, Some err), e) (snd a) [listen]
  | Ok l =>
      let key := Leased.export_path service (Leased.leaseID e) in
      let put :=
        Client_Put (Leased.conn e) ctx key (Listener_Addr l)
                   (Leased.leaseID e) in
      let b := h put (snd a) in
      match fst b with
      | Some err => mkRun ((None, Some err), e) (snd b) [listen; put]
      | None => mkRun ((Some l, None), Leased.set_path e key) (snd b)
                      [listen; put]
      end
  end.
Proof.
  to_calls. answer h. destruct x as [l | err]; cbn; [| done].
  answer h. by destruct x.
Qed.

Lemma Legacy_NewExportedPort_run `{NetLib} {W : Type} (h : Handler W) (w : W)
    (self : Legacy.ServiceExporter) (network ip servicename : string) :
  run h (Legacy.NewExportedPort self network ip servicename) w =
  let hostport := Legacy.listen_address ip in
  let listen := net_Listen network hostport in
  let a := h listen w in
  match fst a with
  | Fail err => mkRun ((None, Some err), self) (snd a) [listen]
  | Ok l =>
      let add :=
        Client_AddChild (Legacy.conn self) (Legacy.export_path servicename)
                        hostport 0 in
      let b := h add (snd a) in
      match fst b with
      | Fail err => mkRun ((None, Some err), self) (snd b) [listen; add]
      | Ok resp =>
          mkRun ((Some l, None),
                 match Node_ resp with
                 | Some node => Legacy.set_path self (Key node)
                 | None => self
                 end)
                (snd b) [listen; add]
      end
  end.
Proof.
  to_calls. answer h. destruct x as [l | err]; cbn; [| done].
  answer h. destruct x as [resp | err]; cbn; [| done].
  by destruct (Node_ resp).
Qed.

(** C7. The last published path changes only in an export that succeeds.
    In both packages, an export that returns an error returns the exporter
    as it was, field by field; an export after which the path differs has
    had its bind and its store write succeed and returns the listener with
    a nil error.  A refused bind (which is also how a malformed address
    shows) and a refused store write each end in an error. *)
Theorem path_changes_only_on_success `{NetLib} {W : Type} (h : Handler W)
    (w : W) :
  (forall (e : Leased.ServiceExporter) (ctx : Context)
          (network ip service : string),
     let r := run h (Leased.NewExportedPort e ctx network ip service) w in
     let listen := net_Listen network (Leased.listen_address ip) in
     (got_error (value r) <> None -> receiver (value r) = e) /\
     (Leased.path (receiver (value r)) <> Leased.path e ->
        got_error (value r) = None /\
        exists l, got_listener (value r) = Some l /\
                  fst (h listen w) = Ok l) /\
     (forall err, fst (h listen w) = Fail err ->
        got_error (value r) = Some err) /\
     (forall l err,
        fst (h listen w) = Ok l ->
        fst (h (Client_Put (Leased.conn e) ctx
                  (Leased.export_path service (Leased.leaseID e))
                  (Listener_Addr l) (Leased.leaseID e))
               (snd (h listen w))) = Some err ->
        got_error (value r) = Some err)) /\
  (forall (self : Legacy.ServiceExporter) (network ip servicename : string),
     let r := run h (Legacy.NewExportedPort self network ip servicename) w in
     let listen := net_Listen network (Legacy.listen_address ip) in
     (got_error (value r) <> None -> receiver (value r) = self) /\
     (Legacy.path (receiver (value r)) <> Legacy.path self ->
        got_error (value r) = None /\
        exists l, got_listener (value r) = Some l /\
                  fst (h listen w) = Ok l) /\
     (forall err, fst (h listen w) = Fail err ->
        got_error (value r) = Some err) /\
     (forall l err,
        fst (h listen w) = Ok l ->
        fst (h (Client_AddChild (Legacy.conn self)
                  (Legacy.export_path servicename)
                  (Legacy.listen_address ip) 0)
               (snd (h listen w))) = Fail err ->
        got_error (value r) = Some err)).
Proof.
  split.
  - intros e ctx network ip service r listen. subst r listen.
    rewrite Leased_NewExportedPort_run. cbn zeta.
    answer h. destruct x as [l | err0]; cbn.
    + answer h. unfold got_error, got_listener, receiver.
      destruct x as [err1 |]; cbn; repeat split; try done; eauto.
      * intros l' err' Hl. injection Hl as <-. rewrite E0. done.
      * intros l' err' Hl. injection Hl as <-. rewrite E0. done.
    + unfold got_error, got_listener, receiver; cbn.
      repeat split; try done. congruence.
  - intros self network ip servicename r listen. subst r listen.
    rewrite Legacy_NewExportedPort_run. cbn zeta.
    answer h. destruct x as [l | err0]; cbn.
    + answer h. unfold got_error, got_listener, receiver.
      destruct x as [resp | err1]; cbn; repeat split; try done; eauto.
      intros l' err' _ Hr. congruence.
    + unfold got_error, got_listener, receiver; cbn.
      repeat split; try done. congruence.
Qed.

Lemma path_changes_only_on_success_witness :
  (let r := run Sim.sim
              (Leased.NewExportedPort Sim.published Sim.ctx0 "tcp"
                 "127.0.0.1" "bar")
              (Sim.set_down Sim.fresh Sim.put_down) in
   receiver (value r) = Sim.published) /\
  (let r := run Sim.sim
              (Leased.NewExportedPort Sim.unpublished Sim.ctx0 "tcp"
                 "127.0.0.1" "foo")
              Sim.fresh in
   got_error (value r) = None /\
   exists l, got_listener (value r) = Some l /\
             fst (Sim.sim (net_Listen "tcp" "127.0.0.1:0") Sim.fresh) = Ok l)
  /\
  (let r := run Sim.sim
              (Leased.NewExportedPort Sim.published Sim.ctx0 "tcp"
                 "127.0.0.1:9000" "bar")
              (Sim.set_down Sim.fresh Sim.listen_down) in
   got_error (value r) = Some Sim.unavailable) /\
  (let r := run Sim.sim
              (Legacy.NewExportedPort Sim.legacy_published "tcp"
                 "127.0.0.1" "bar")
              (Sim.set_down Sim.fresh Sim.put_down) in
   receiver (value r) = Sim.legacy_published) /\
  (let r := run Sim.sim
              (Legacy.NewExportedPort Sim.legacy_unpublished "tcp"
                 "127.0.0.1" "foo")
              Sim.fresh in
   got_error (value r) = None).
Proof.
  split; [| split; [| split; [| split]]].
  - destruct (path_changes_only_on_success Sim.sim
                (Sim.set_down Sim.fresh Sim.put_down)) as [HL _].
    destruct (HL Sim.published Sim.ctx0 "tcp" "127.0.0.1" "bar")
      as (H1 & _).
    apply H1. vm_compute. discriminate.
  - destruct (path_changes_only_on_success Sim.sim Sim.fresh) as [HL _].
    destruct (HL Sim.unpublished Sim.ctx0 "tcp" "127.0.0.1" "foo")
      as (_ & H2 & _).
    apply H2. vm_compute. discriminate.
  - destruct (path_changes_only_on_success Sim.sim
                (Sim.set_down Sim.fresh Sim.listen_down)) as [HL _].
    destruct (HL Sim.published Sim.ctx0 "tcp" "127.0.0.1:9000" "bar")
      as (_ & _ & H3 & _).
    apply H3. reflexivity.
  - destruct (path_changes_only_on_success Sim.sim
                (Sim.set_down Sim.fresh Sim.put_down)) as [_ HG].
    destruct (HG Sim.legacy_published "tcp" "127.0.0.1" "bar") as (H1 & _).
    apply H1. vm_compute. discriminate.
  - destruct (path_changes_only_on_success Sim.sim Sim.fresh) as [_ HG].
    destruct (HG Sim.legacy_unpublished "tcp" "127.0.0.1" "foo")
      as (_ & H2 & _).
    apply H2. vm_compute. discriminate.
Defined.

(** C8, as the code has it.  When the bind succeeds and the store write is
    refused, both packages return the store's error with a nil listener and
    the exporter untouched, and the only calls issued are the listen and
    the refused write: no close of the bound socket is issued, and the
    world is left as the refused write left it. *)
Theorem failed_write_returns_error_keeps_socket `{NetLib} {W : Type}
    (h : Handler W) (w : W) :
  (forall (e : Leased.ServiceExporter) (ctx : Context)
          (network ip service : string) (l : Listener) (err : GoError),
     let listen := net_Listen network (Leased.listen_address ip) in
     let put :=
       Client_Put (Leased.conn e) ctx
         (Leased.export_path service (Leased.leaseID e))
         (Listener_Addr l) (Leased.leaseID e) in
     let r := run h (Leased.NewExportedPort e ctx network ip service) w in
     fst (h listen w) = Ok l ->
     fst (h put (snd (h listen w))) = Some err ->
     value r = ((None, Some err), e) /\
     calls r = [listen; put] /\
     existsb is_close (calls r) = false /\
     world r = snd (h put (snd (h listen w)))) /\
  (forall (self : Legacy.ServiceExporter) (network ip servicename : string)
          (l : Listener) (err : GoError),
     let listen := net_Listen network (Legacy.listen_address ip) in
     let add :=
       Client_AddChild (Legacy.conn self) (Legacy.export_path servicename)
         (Legacy.listen_address ip) 0 in
     let r := run h (Legacy.NewExportedPort self network ip servicename) w in
     fst (h listen w) = Ok l ->
     fst (h add (snd (h listen w))) = Fail err ->
     value r = ((None, Some err), self) /\
     calls r = [listen; add] /\
     existsb is_close (calls r) = false /\
     world r = snd (h add (snd (h listen w)))).
Proof.
  split.
  - intros e ctx network ip service l err listen put r Hl Hp.
    subst listen put r. rewrite Leased_NewExportedPort_run. cbn zeta.
    rewrite Hl, Hp. done.
  - intros self network ip servicename l err listen add r Hl Hp.
    subst listen add r. rewrite Legacy_NewExportedPort_run. cbn zeta.
    rewrite Hl, Hp. done.
Qed.

Lemma failed_write_returns_error_keeps_socket_witness :
  (let r := run Sim.sim
              (Leased.NewExportedPort Sim.unpublished Sim.ctx0 "tcp"
                 "127.0.0.1" "foo")
              (Sim.set_down Sim.fresh Sim.put_down) in
   value r = ((None, Some Sim.unavailable), Sim.unpublished) /\
   calls r =
     [net_Listen "tcp" "127.0.0.1:0";
      Client_Put Sim.client0 Sim.ctx0 "/ns/service/foo/694d5765fc715001"
        "127.0.0.1:49153" (Sim.lease_base + 1)]) /\
  (let r := run Sim.sim
              (Legacy.NewExportedPort Sim.legacy_unpublished "tcp"
                 "127.0.0.1" "foo")
              (Sim.set_down Sim.fresh Sim.put_down) in
   value r = ((None, Some Sim.unavailable), Sim.legacy_unpublished) /\
   calls r =
     [net_Listen "tcp" "127.0.0.1:0";
      Client_AddChild Sim.client0 "/ns/service/foo" "127.0.0.1:0" 0]).
Proof.
  destruct (failed_write_returns_error_keeps_socket Sim.sim
              (Sim.set_down Sim.fresh Sim.put_down)) as [HL HG].
  split.
  - destruct (HL Sim.unpublished Sim.ctx0 "tcp" "127.0.0.1" "foo"
                (NetListener 1 "127.0.0.1:49153") Sim.unavailable)
      as (H1 & H2 & _); [reflexivity | reflexivity |].
    exact (conj H1 H2).
  - destruct (HG Sim.legacy_unpublished "tcp" "127.0.0.1" "foo"
                (NetListener 1 "127.0.0.1:49153") Sim.unavailable)
      as (H1 & H2 & _); [reflexivity | reflexivity |].
    exact (conj H1 H2).
Defined.

(** C8 as stated fails.  With no socket open beforehand, an export whose
    bind succeeds and whose store write is refused returns a nil listener
    and an error, and the socket it bound is still open afterwards: no
    close was issued. *)
Lemma failed_write_leaves_socket_open :
  let w := Sim.set_down Sim.fresh Sim.put_down in
  let r := run Sim.sim
             (Leased.NewExportedPort Sim.unpublished Sim.ctx0 "tcp"
                "127.0.0.1" "foo") w in
  Sim.sockets w = [] /\
  got_listener (value r) = None /\
  got_error (value r) = Some Sim.unavailable /\
  Sim.sockets (world r) = [NetListener 1 "127.0.0.1:49153"] /\
  Sim.is_open (world r) 1 = true /\
  existsb is_close (calls r) = false.
Proof. vm_compute. repeat split. Qed.

(** C3, as the code has it.  The lease-keyed package: when the address
    parses as a host:port pair the one listen of the export is on exactly
    that address, otherwise it is on the address joined with port ["0"];
    and when the export returns a listener, that listener is the one the
    platform answered the listen with and the value put in the store is its
    resolved address.  The go-etcd package overrides the port: its one
    listen is always on port ["0"], joined to the host part of a host:port
    pair or to the whole address. *)
Theorem export_listens_where_asked `{NetLib} {W : Type} (h : Handler W)
    (w : W) :
  (forall (e : Leased.ServiceExporter) (ctx : Context)
          (network ip service : string),
     let r := run h (Leased.NewExportedPort e ctx network ip service) w in
     (is_Some (SplitHostPort ip) ->
        List.filter is_listen (calls r) = [net_Listen network ip]) /\
     (SplitHostPort ip = None ->
        List.filter is_listen (calls r) =
          [net_Listen network (JoinHostPort ip "0")]) /\
     (forall l, got_listener (value r) = Some l ->
        fst (h (net_Listen network (Leased.listen_address ip)) w) = Ok l /\
        List.filter (fun c => negb (is_listen c)) (calls r) =
          [Client_Put (Leased.conn e) ctx
             (Leased.export_path service (Leased.leaseID e))
             (Listener_Addr l) (Leased.leaseID e)])) /\
  (forall (self : Legacy.ServiceExporter) (network ip servicename : string),
     let r := run h (Legacy.NewExportedPort self network ip servicename) w in
     (forall host port, SplitHostPort ip = Some (host, port) ->
        List.filter is_listen (calls r) =
          [net_Listen network (JoinHostPort host "0")]) /\
     (SplitHostPort ip = None ->
        List.filter is_listen (calls r) =
          [net_Listen network (JoinHostPort ip "0")])).
Proof.
  split.
  - intros e ctx network ip service r. subst r.
    rewrite Leased_NewExportedPort_run. cbn zeta.
    unfold Leased.listen_address.
    destruct (SplitHostPort ip) as [hp |] eqn:Es;
      (answer h; destruct x as [l | err]; cbn;
       [answer h; destruct x; cbn |]);
      unfold got_listener; cbn; repeat split;
      try done; try (by intros [? ?]); congruence.
  - intros self network ip servicename r. subst r.
    rewrite Legacy_NewExportedPort_run. cbn zeta.
    unfold Legacy.listen_address.
    destruct (SplitHostPort ip) as [[host0 port0] |] eqn:Es.
    + answer h. destruct x as [l | err]; cbn.
      * answer h. destruct x; cbn; split; try done;
          intros host port [= <- <-]; done.
      * split; try done. intros host port [= <- <-]; done.
    + answer h. destruct x as [l | err]; cbn.
      * answer h. destruct x; cbn; split; done.
      * split; done.
Qed.

Lemma export_listens_where_asked_witness :
  (let r := run Sim.sim
              (Leased.NewExportedPort Sim.unpublished Sim.ctx0 "tcp"
                 "127.0.0.1:9000" "foo") Sim.fresh in
   List.filter is_listen (calls r) = [net_Listen "tcp" "127.0.0.1:9000"]) /\
  (let r := run Sim.sim
              (Leased.NewExportedPort Sim.unpublished Sim.ctx0 "tcp"
                 "127.0.0.1" "foo") Sim.fresh in
   List.filter is_listen (calls r) = [net_Listen "tcp" "127.0.0.1:0"] /\
   List.filter (fun c => negb (is_listen c)) (calls r) =
     [Client_Put Sim.client0 Sim.ctx0 "/ns/service/foo/694d5765fc715001"
        "127.0.0.1:49153" (Sim.lease_base + 1)]) /\
  (let r := run Sim.sim
              (Legacy.NewExportedPort Sim.legacy_unpublished "tcp"
                 "127.0.0.1:9000" "foo") Sim.fresh in
   List.filter is_listen (calls r) = [net_Listen "tcp" "127.0.0.1:0"]) /\
  (let r := run Sim.sim
              (Legacy.NewExportedPort Sim.legacy_unpublished "tcp"
                 "localhost" "foo") Sim.fresh in
   List.filter is_listen (calls r) = [net_Listen "tcp" "localhost:0"]).
Proof.
  destruct (export_listens_where_asked Sim.sim Sim.fresh) as [HL HG].
  split; [| split; [| split]].
  - destruct (HL Sim.unpublished Sim.ctx0 "tcp" "127.0.0.1:9000" "foo")
      as (H1 & _).
    apply H1. vm_compute. eauto.
  - destruct (HL Sim.unpublished Sim.ctx0 "tcp" "127.0.0.1" "foo")
      as (_ & H2 & H3).
    split; [apply H2; reflexivity |].
    apply (H3 (NetListener 1 "127.0.0.1:49153")). reflexivity.
  - destruct (HG Sim.legacy_unpublished "tcp" "127.0.0.1:9000" "foo")
      as (H1 & _).
    apply (H1 "127.0.0.1" "9000"). reflexivity.
  - destruct (HG Sim.legacy_unpublished "tcp" "localhost" "foo")
      as (_ & H2).
    apply H2. reflexivity.
Defined.

(** C3 as stated fails on the go-etcd package.  The address
    ["127.0.0.1:9000"] parses as a host:port pair, yet the export listens
    on port ["0"], the platform binds a port of its own choice, and port
    9000 is not bound. *)
Lemma legacy_export_overrides_port :
  let r := run Sim.sim
             (Legacy.NewExportedPort Sim.legacy_unpublished "tcp"
                "127.0.0.1:9000" "foo") Sim.fresh in
  SplitHostPort "127.0.0.1:9000" = Some ("127.0.0.1", "9000") /\
  got_error (value r) = None /\
  got_listener (value r) = Some (NetListener 1 "127.0.0.1:49153") /\
  List.filter is_listen (calls r) = [net_Listen "tcp" "127.0.0.1:0"] /\
  Sim.bound (world r) "127.0.0.1:9000" = false.
Proof. vm_compute. repeat split. Qed.

(** C4, as the code has it.  A successful export of the lease-keyed
    package issues one store write: the put of the resolved address of the
    listener the platform bound, the very listener returned, under the
    exporter's lease; the value ends in [":0"] only if the platform resolved
    the listener to such an address.  A successful export of the go-etcd
    package issues one store write, an [AddChild] under
    [/ns/service/{servicename}] with TTL 0: it is bound to no lease. *)
Theorem export_publishes_listener_address `{NetLib} {W : Type}
    (h : Handler W) (w : W) :
  (forall (e : Leased.ServiceExporter) (ctx : Context)
          (network ip service : string) (l : Listener),
     let r := run h (Leased.NewExportedPort e ctx network ip service) w in
     got_listener (value r) = Some l ->
     fst (h (net_Listen network (Leased.listen_address ip)) w) = Ok l /\
     calls r =
       [net_Listen network (Leased.listen_address ip);
        Client_Put (Leased.conn e) ctx
          (Leased.export_path service (Leased.leaseID e))
          (Listener_Addr l) (Leased.leaseID e)] /\
     (has_suffix ":0" (Listener_Addr l) = false ->
      forall c v, c ∈ calls r -> put_value c = Some v ->
                  has_suffix ":0" v = false)) /\
  (forall (self : Legacy.ServiceExporter) (network ip servicename : string)
          (l : Listener),
     let r := run h (Legacy.NewExportedPort self network ip servicename) w in
     got_listener (value r) = Some l ->
     exists address value,
       calls r =
         [net_Listen network address;
          Client_AddChild (Legacy.conn self)
            (Legacy.export_path servicename) value 0]).
Proof.
  split.
  - intros e ctx network ip service l r. subst r.
    rewrite Leased_NewExportedPort_run. cbn zeta.
    answer h. destruct x as [l0 | err]; cbn; [| done].
    answer h. unfold got_listener.
    destruct x as [err |]; cbn; [done |].
    intros [= <-]. repeat split.
    intros Hl c v Hc Hv.
    rewrite !elem_of_cons in Hc. destruct Hc as [-> | [-> | Hc]].
    + discriminate.
    + injection Hv as <-. exact Hl.
    + by apply elem_of_nil in Hc.
  - intros self network ip servicename l r. subst r.
    rewrite Legacy_NewExportedPort_run. cbn zeta.
    answer h. destruct x as [l0 | err]; cbn; [| done].
    answer h. unfold got_listener.
    destruct x as [resp | err]; cbn; [| done].
    intros _. eauto.
Qed.

Lemma export_publishes_listener_address_witness :
  (let r := run Sim.sim
              (Leased.NewExportedPort Sim.unpublished Sim.ctx0 "tcp"
                 "127.0.0.1" "foo") Sim.fresh in
   calls r =
     [net_Listen "tcp" "127.0.0.1:0";
      Client_Put Sim.client0 Sim.ctx0 "/ns/service/foo/694d5765fc715001"
        "127.0.0.1:49153" (Sim.lease_base + 1)] /\
   forall c v, c ∈ calls r -> put_value c = Some v ->
               has_suffix ":0" v = false) /\
  (let r := run Sim.sim
              (Legacy.NewExportedPort Sim.legacy_unpublished "tcp"
                 "127.0.0.1" "foo") Sim.fresh in
   exists address value,
     calls r =
       [net_Listen "tcp" address;
        Client_AddChild Sim.client0 "/ns/service/foo" value 0]).
Proof.
  destruct (export_publishes_listener_address Sim.sim Sim.fresh) as [HL HG].
  split.
  - destruct (HL Sim.unpublished Sim.ctx0 "tcp" "127.0.0.1" "foo"
                (NetListener 1 "127.0.0.1:49153"))
      as (_ & H2 & H3); [reflexivity |].
    exact (conj H2 (H3 eq_refl)).
  - apply (HG Sim.legacy_unpublished "tcp" "127.0.0.1" "foo"
              (NetListener 1 "127.0.0.1:49153")).
    reflexivity.
Defined.

(** C4 as stated fails on the go-etcd package.  A successful export of a
    bare host binds a listener that resolves to port 49153 and writes the
    string ["127.0.0.1:0"] to the store, with TTL 0 and no lease. *)
Lemma legacy_export_publishes_port_zero :
  let r := run Sim.sim
             (Legacy.NewExportedPort Sim.legacy_unpublished "tcp"
                "127.0.0.1" "foo") Sim.fresh in
  got_error (value r) = None /\
  (Listener_Addr <$> got_listener (value r)) = Some "127.0.0.1:49153" /\
  calls r =
    [net_Listen "tcp" "127.0.0.1:0";
     Client_AddChild Sim.client0 "/ns/service/foo" "127.0.0.1:0" 0] /\
  has_suffix ":0" "127.0.0.1:0" = true /\
  Sim.kv (world r) !! "/ns/service/foo/2" = Some ("127.0.0.1:0", 0).
Proof. vm_compute. repeat split. Qed.

(** ** The lease and the key *)

Lemma Leased_NewExportedPort_leaseID `{NetLib} {W : Type} (h : Handler W)
    (w : W) (e : Leased.ServiceExporter) (ctx : Context)
    (network ip service : string) :
  let e' := receiver
              (value (run h (Leased.NewExportedPort e ctx network ip service)
                          w)) in
  Leased.leaseID e' = Leased.leaseID e /\ Leased.conn e' = Leased.conn e /\
  Leased.keepaliveResponses e' = Leased.keepaliveResponses e.
Proof.
  rewrite Leased_NewExportedPort_run. cbn zeta.
  answer h. destruct x as [l | err]; cbn; [| done].
  answer h. by destruct x.
Qed.

Lemma Leased_NewExportedPort_puts `{NetLib} {W : Type} (h : Handler W)
    (w : W) (e : Leased.ServiceExporter) (ctx : Context)
    (network ip service : string) (c : Call) :
  c ∈ calls (run h (Leased.NewExportedPort e ctx network ip service) w) ->
  (forall k, put_key c = Some k ->
             k = Leased.export_path service (Leased.leaseID e)) /\
  (forall id, put_lease c = Some id -> id = Leased.leaseID e) /\
  is_lease_call c = false.
Proof.
  rewrite Leased_NewExportedPort_run. cbn zeta.
  answer h. destruct x as [l | err]; cbn.
  - answer h. destruct x; cbn; rewrite !elem_of_cons, elem_of_nil;
      intros [-> | [-> | []]]; cbn; repeat split; congruence.
  - rewrite elem_of_cons, elem_of_nil. intros [-> | []]; cbn.
    repeat split; congruence.
Qed.

Lemma sim_listen_kv (network address : string) (w w' : Sim.World)
    (x : result Listener) :
  Sim.sim (net_Listen network address) w = (x, w') -> Sim.kv w' = Sim.kv w.
Proof.
  unfold Sim.sim. destruct (Sim.down w _); cbn; [congruence |].
  unfold Sim.listen.
  destruct (GoNet.split_host_port address) as [[host port] |];
    [| congruence].
  destruct (Sim.bound w _); intros [= _ <-]; reflexivity.
Qed.

Lemma sim_put_kv (conn : Client) (ctx : Context) (key val : string)
    (lease : LeaseID) (w w' : Sim.World) :
  Sim.sim (Client_Put conn ctx key val lease) w = (None, w') ->
  Sim.kv w' = <[key := (val, lease)]> (Sim.kv w).
Proof.
  unfold Sim.sim. destruct (Sim.down w _); cbn; [discriminate |].
  intros [= <-]. reflexivity.
Qed.

Lemma export_twice_run `{NetLib} {W : Type} (h : Handler W) (w : W)
    (e : Leased.ServiceExporter) (ctx : Context)
    (network ip1 ip2 service : string) :
  run h (export_twice e ctx network ip1 ip2 service) w =
  let ra := run h (Leased.NewExportedPort e ctx network ip1 service) w in
  let rb := run h (Leased.NewExportedPort (receiver (value ra)) ctx network
                     ip2 service) (world ra) in
  mkRun (fst (value ra), fst (value rb), receiver (value rb)) (world rb)
        (calls ra ++ calls rb).
Proof.
  unfold export_twice, mbind, Prog_bind. rewrite run_bind. cbn zeta.
  destruct (value (run h (Leased.NewExportedPort e ctx network ip1 service)
                      w)) as [res1 e1].
  rewrite run_bind. cbn zeta. unfold receiver; cbn [snd fst].
  destruct (value (run h (Leased.NewExportedPort e1 ctx network ip2 service)
                      _)) as [res2 e2].
  cbn. by rewrite app_nil_r.
Qed.

(** In the stand-in store a successful export adds or replaces exactly the
    binding of its key. *)
Lemma sim_export_kv `{NetLib} (w : Sim.World) (e : Leased.ServiceExporter)
    (ctx : Context) (network ip service : string) (l : Listener) :
  fst (value (run Sim.sim (Leased.NewExportedPort e ctx network ip service)
                  w)) = (Some l, None) ->
  Sim.kv (world (run Sim.sim (Leased.NewExportedPort e ctx network ip service)
                     w)) =
    <[Leased.export_path service (Leased.leaseID e) :=
        (Listener_Addr l, Leased.leaseID e)]> (Sim.kv w).
Proof.
  rewrite Leased_NewExportedPort_run. cbn zeta.
  destruct (Sim.sim (net_Listen network (Leased.listen_address ip)) w)
    as [x1 w1] eqn:E1; cbn [fst snd].
  destruct x1 as [la | err]; cbn [fst snd value world]; [| discriminate].
  destruct (Sim.sim (Client_Put _ _ _ _ _) w1) as [x2 w2] eqn:E2;
    cbn [fst snd].
  destruct x2 as [err |]; cbn [fst snd value world]; [discriminate |].
  intros [= ->].
  apply sim_put_kv in E2. apply sim_listen_kv in E1.
  by rewrite E2, E1.
Qed.

(** C5. Every store write of an export on the lease-keyed package goes to
    the key [/ns/service/{service}/{lease}], the lease identifier written as
    [%16x] writes it: lower-case hexadecimal, filled on the left with
    spaces up to 16 characters; on success that key is the new last
    published path.  Two exports of one service name on one exporter write
    to one and the same key, each under the exporter's lease.  In a store
    where a put inserts, two such exports that succeed leave the keyspace
    as one put would: the key holds the second address, and no second key
    has appeared. *)
Theorem same_service_same_key `{NetLib} (e : Leased.ServiceExporter)
    (ctx : Context) (network ip1 ip2 service : string) :
  let key := "/ns/service/" ++ service ++ "/"
             ++ pad_left 16 (fmt_x (Leased.leaseID e)) in
  (forall (W : Type) (h : Handler W) (w : W),
     let r1 := run h (Leased.NewExportedPort e ctx network ip1 service) w in
     let r := run h (export_twice e ctx network ip1 ip2 service) w in
     (forall c k, c ∈ calls r1 -> put_key c = Some k -> k = key) /\
     (got_error (value r1) = None ->
        Leased.path (receiver (value r1)) = key) /\
     (forall c k, c ∈ calls r -> put_key c = Some k -> k = key) /\
     (forall c id, c ∈ calls r -> put_lease c = Some id ->
                   id = Leased.leaseID e)) /\
  (forall (w : Sim.World) (l1 l2 : Listener),
     let r := run Sim.sim (export_twice e ctx network ip1 ip2 service) w in
     fst (value r) = ((Some l1, None), (Some l2, None)) ->
     Sim.kv (world r) =
       <[key := (Listener_Addr l2, Leased.leaseID e)]> (Sim.kv w)).
Proof.
  intros key. split.
  - intros W h w r1 r. subst r1 r.
    assert (Htwice : forall c,
               c ∈ calls (run h (export_twice e ctx network ip1 ip2 service)
                              w) ->
               (forall k, put_key c = Some k -> k = key) /\
               (forall id, put_lease c = Some id -> id = Leased.leaseID e)).
    { intros c. unfold export_twice, mbind, Prog_bind.
      rewrite run_bind. cbn zeta.
      destruct (value (run h (Leased.NewExportedPort e ctx network ip1
                                service) w)) as [res1 e1] eqn:Ev.
      rewrite run_bind. cbn zeta.
      destruct (value (run h (Leased.NewExportedPort e1 ctx network ip2
                                service) _)) as [res2 e2] eqn:Ev2.
      cbn. rewrite app_nil_r, elem_of_app.
      pose proof (Leased_NewExportedPort_leaseID h w e ctx network ip1
                    service) as (Hid & _).
      rewrite Ev in Hid. cbn in Hid.
      intros [Hc | Hc]; apply Leased_NewExportedPort_puts in Hc;
        destruct Hc as (Hk & Hl & _); rewrite ?Hid in *;
        (split; [exact Hk | exact Hl]). }
    repeat split.
    + intros c k Hc. apply Leased_NewExportedPort_puts in Hc as (Hk & _).
      exact (Hk k).
    + rewrite Leased_NewExportedPort_run. cbn zeta.
      answer h. destruct x as [l | err]; cbn; [| done].
      answer h. by destruct x.
    + intros c k Hc. by apply Htwice.
    + intros c id Hc. by apply Htwice.
  - intros w l1 l2 r. subst r.
    rewrite export_twice_run. cbn zeta.
    set (ra := run Sim.sim (Leased.NewExportedPort e ctx network ip1 service)
                   w).
    set (rb := run Sim.sim (Leased.NewExportedPort _ _ _ _ _) (world ra)).
    cbn [value world fst]. intros Hv.
    apply pair_equal_spec in Hv as [Ha Hb].
    pose proof (Leased_NewExportedPort_leaseID Sim.sim w e ctx network ip1
                  service) as (Hid & _).
    cbn zeta in Hid. fold ra in Hid.
    unfold rb. rewrite (sim_export_kv _ _ _ _ _ _ _ Hb), Hid.
    unfold ra. rewrite (sim_export_kv _ _ _ _ _ _ _ Ha).
    apply insert_insert_eq.
Qed.

Lemma same_service_same_key_witness :
  Leased.path
    (receiver
       (value (run Sim.sim
                 (Leased.NewExportedPort Sim.unpublished Sim.ctx0 "tcp"
                    "127.0.0.1" "foo") Sim.fresh))) =
    "/ns/service/foo/694d5765fc715001" /\
  Sim.kv
    (world (run Sim.sim
              (export_twice Sim.unpublished Sim.ctx0 "tcp" "127.0.0.1"
                 "127.0.0.1:9000" "foo") Sim.fresh)) =
    <["/ns/service/foo/694d5765fc715001" :=
        ("127.0.0.1:9000", Sim.lease_base + 1)]> ∅.
Proof.
  destruct (same_service_same_key Sim.unpublished Sim.ctx0 "tcp" "127.0.0.1"
              "127.0.0.1:9000" "foo") as [HA HB].
  split.
  - destruct (HA Sim.World Sim.sim Sim.fresh) as (_ & H2 & _).
    apply H2. reflexivity.
  - apply (HB Sim.fresh (NetListener 1 "127.0.0.1:49153")
              (NetListener 2 "127.0.0.1:9000")).
    reflexivity.
Defined.

(** A lease identifier of fewer than 16 hexadecimal digits is written into
    the key with spaces in front. *)
Example export_path_short_lease :
  Leased.export_path "foo" 42 = "/ns/service/foo/              2a".
Proof. reflexivity. Qed.

Example export_path_long_lease :
  Leased.export_path "foo" 7587817042727751681 =
  "/ns/service/foo/694d5765fc715001".
Proof. reflexivity. Qed.

(** Settle a property of every call of a run whose calls are known. *)
Ltac each_call :=
  let c := fresh "c" in
  let Hc := fresh "Hc" in
  intros c Hc;
  repeat (apply elem_of_cons in Hc as [Hc | Hc]; [subst c |]);
  try (by apply elem_of_nil in Hc);
  cbn; split; congruence.

Lemma do_op_lease `{NetLib} {W : Type} (h : Handler W) (w : W)
    (e : Leased.ServiceExporter) (o : Op) :
  Leased.leaseID (value (run h (do_op e o) w)) = Leased.leaseID e /\
  forall c, c ∈ calls (run h (do_op e o) w) ->
    is_lease_call c = false /\
    forall id, put_lease c = Some id -> id = Leased.leaseID e.
Proof.
  destruct o; unfold do_op.
  - to_calls. answer h. destruct x; cbn [bind run value world calls];
      [answer h; destruct x |]; cbn; (split; [done | each_call]).
  - to_calls. answer h. destruct x; cbn [bind run value world calls];
      [answer h; destruct x |]; cbn; (split; [done | each_call]).
  - to_calls. answer h. destruct x; cbn [bind run value world calls];
      [answer h; destruct x; cbn [bind run value world calls];
       [| answer h] |];
      cbn; (split; [done | each_call]).
  - unfold Leased.UnexportPort.
    destruct (String.length (Leased.path e) =? 0)%nat.
    + cbn. split; [done | each_call].
    + to_calls. answer h. destruct x; cbn; (split; [done | each_call]).
Qed.

Lemma do_ops_lease `{NetLib} {W : Type} (h : Handler W) (os : list Op) :
  forall (w : W) (e : Leased.ServiceExporter),
    Leased.leaseID (value (run h (do_ops e os) w)) = Leased.leaseID e /\
    forall c, c ∈ calls (run h (do_ops e os) w) ->
      is_lease_call c = false /\
      forall id, put_lease c = Some id -> id = Leased.leaseID e.
Proof.
  induction os as [| o os IH]; intros w e.
  - cbn. split; [done |]. intros c Hc. by apply elem_of_nil in Hc.
  - cbn [do_ops]. unfold mbind, Prog_bind. rewrite run_bind. cbn zeta.
    destruct (do_op_lease h w e o) as [Hid Hcalls].
    destruct (IH (world (run h (do_op e o) w))
                 (value (run h (do_op e o) w))) as [Hid' Hcalls'].
    cbn [value calls]. split; [congruence |].
    intros c. rewrite elem_of_app. intros [Hc | Hc].
    + by apply Hcalls.
    + rewrite <- Hid. by apply Hcalls'.
Qed.

Lemma Leased_initLease_run {W : Type} (h : Handler W) (w : W)
    (e : Leased.ServiceExporter) (ctx : Context) (ttl : Z) :
  run h (Leased.initLease e ctx ttl) w =
  let grant := Client_Grant (Leased.conn e) ctx ttl in
  let a := h grant w in
  match fst a with
  | Fail err => mkRun (Some err, e) (snd a) [grant]
  | Ok lease =>
      let keep := Client_KeepAlive (Leased.conn e) Background (ID lease) in
      let b := h keep (snd a) in
      let e1 := Leased.set_keepaliveResponses e (fst (fst b)) in
      match snd (fst b) with
      | Some err => mkRun (Some err, e1) (snd b) [grant; keep]
      | None =>
          let go := go_consumeKeepaliveResponses (fst (fst b)) in
          mkRun (None, Leased.set_leaseID e1 (ID lease))
                (snd (h go (snd b))) [grant; keep; go]
      end
  end.
Proof.
  to_calls. answer h. destruct x as [lease | err]; cbn; [| done].
  answer h. destruct x as [ch [err |]]; cbn; [done |].
  answer h. done.
Qed.

(** C9. [initLease] writes the lease identifier at most once: when it
    succeeds the identifier is the one the store granted, when it fails the
    identifier is as it was.  After that no operation writes it: through any
    sequence of exports, TLS exports, HTTP serves and unexports the
    identifier stays what it was, no call acts on a lease, and every store
    write of the sequence is made under that one lease. *)
Theorem leaseID_assigned_once `{NetLib} {W : Type} (h : Handler W) (w : W)
    (e : Leased.ServiceExporter) :
  (forall (ctx : Context) (ttl : Z),
     let r := run h (Leased.initLease e ctx ttl) w in
     (fst (value r) = None ->
        exists lease,
          fst (h (Client_Grant (Leased.conn e) ctx ttl) w) = Ok lease /\
          Leased.leaseID (snd (value r)) = ID lease) /\
     (fst (value r) <> None ->
        Leased.leaseID (snd (value r)) = Leased.leaseID e)) /\
  (forall (os : list Op),
     let r := run h (do_ops e os) w in
     Leased.leaseID (value r) = Leased.leaseID e /\
     forall c, c ∈ calls r ->
       is_lease_call c = false /\
       forall id, put_lease c = Some id -> id = Leased.leaseID e).
Proof.
  split.
  - intros ctx ttl r. subst r. rewrite Leased_initLease_run. cbn zeta.
    answer h. destruct x as [lease | err]; cbn; [| done].
    answer h. destruct x as [ch [err |]]; cbn; [done |].
    split; [eauto | done].
  - intros os. apply do_ops_lease.
Qed.

Lemma leaseID_assigned_once_witness :
  (let r := run Sim.sim
              (Leased.initLease (Leased.new_ServiceExporter Sim.client0)
                 Sim.ctx0 10) Sim.fresh in
   exists lease,
     fst (Sim.sim (Client_Grant Sim.client0 Sim.ctx0 10) Sim.fresh) = Ok lease
     /\ Leased.leaseID (snd (value r)) = ID lease) /\
  (let r := run Sim.sim
              (Leased.initLease Sim.unpublished Sim.ctx0 10)
              (Sim.set_down Sim.fresh Sim.keepalive_down) in
   Leased.leaseID (snd (value r)) = Sim.lease_base + 1) /\
  (let r := run Sim.sim
              (do_ops Sim.unpublished
                 [OpExport Sim.ctx0 "tcp" "127.0.0.1" "foo";
                  OpUnexport Sim.ctx0;
                  OpExportTLS Sim.ctx0 "tcp" "127.0.0.1:9000" "bar"
                    (TLSConfigRef 3);
                  OpServeHTTP Sim.ctx0 "web" "127.0.0.1:8080" (HandlerRef 4)])
              Sim.fresh in
   Leased.leaseID (value r) = Sim.lease_base + 1 /\
   is_lease_call
     (Client_Put Sim.client0 Sim.ctx0 "/ns/service/bar/694d5765fc715001"
        "127.0.0.1:9000" (Sim.lease_base + 1)) = false).
Proof.
  split; [| split].
  - destruct (leaseID_assigned_once Sim.sim Sim.fresh
                (Leased.new_ServiceExporter Sim.client0)) as [HI _].
    destruct (HI Sim.ctx0 10) as [H1 _]. apply H1. reflexivity.
  - destruct (leaseID_assigned_once Sim.sim
                (Sim.set_down Sim.fresh Sim.keepalive_down)
                Sim.unpublished) as [HI _].
    destruct (HI Sim.ctx0 10) as [_ H2]. apply H2. vm_compute. discriminate.
  - destruct (leaseID_assigned_once Sim.sim Sim.fresh Sim.unpublished)
      as [_ HO].
    destruct (HO [OpExport Sim.ctx0 "tcp" "127.0.0.1" "foo";
                  OpUnexport Sim.ctx0;
                  OpExportTLS Sim.ctx0 "tcp" "127.0.0.1:9000" "bar"
                    (TLSConfigRef 3);
                  OpServeHTTP Sim.ctx0 "web" "127.0.0.1:8080" (HandlerRef 4)])
      as [H1 H2].
    split; [exact H1 |].
    apply H2. apply list_elem_of_In. vm_compute.
    do 4 right. left. reflexivity.
Defined.

(** ** Creating an exporter *)

Lemma NewExporterFromClient_run {W : Type} (h : Handler W) (w : W)
    (ctx : Context) (client : Client) (ttl : Z) :
  run h (Leased.NewExporterFromClient ctx client ttl) w =
  let r := run h (Leased.initLease (Leased.new_ServiceExporter client) ctx
                    ttl) w in
  mkRun (Some (snd (value r)), fst (value r)) (world r) (calls r).
Proof.
  unfold Leased.NewExporterFromClient, mbind, Prog_bind.
  rewrite run_bind. cbn zeta.
  destruct (value (run h (Leased.initLease _ ctx ttl) w)) as [err e1].
  cbn. by rewrite app_nil_r.
Qed.

(** C1, what the code does where the claim asks for no handle.  When the
    lease grant or the keepalive setup fails, every constructor returns the
    error together with a non-nil exporter: the exporter as [initLease] left
    it, with its connection set, no lease identifier and no published path.
    For [NewExporter] and [NewFromDefault] this is the case once the client
    itself could be built; only a client that cannot be built gives a nil
    exporter. *)
Theorem failed_init_returns_exporter {W : Type} (h : Handler W) (w : W)
    (ctx : Context) (ttl : Z) :
  (forall (client : Client),
     let r := run h (Leased.NewExporterFromClient ctx client ttl) w in
     snd (value r) <> None ->
     exists e, fst (value r) = Some e /\
               Leased.conn e = client /\ Leased.leaseID e = 0 /\
               Leased.path e = "") /\
  (forall (etcdURL : string) (client : Client),
     let r := run h (Leased.NewExporter ctx etcdURL ttl) w in
     fst (h (etcd_NewFromURL etcdURL) w) = Ok client ->
     snd (value r) <> None ->
     exists e, fst (value r) = Some e /\
               Leased.conn e = client /\ Leased.leaseID e = 0 /\
               Leased.path e = "") /\
  (forall (client : Client),
     let r := run h (Leased.NewFromDefault ctx ttl) w in
     fst (h autoconf_DefaultEtcdClient w) = Ok client ->
     snd (value r) <> None ->
     exists e, fst (value r) = Some e /\
               Leased.conn e = client /\ Leased.leaseID e = 0 /\
               Leased.path e = "") /\
  (forall (etcdURL : string) (err : GoError),
     fst (h (etcd_NewFromURL etcdURL) w) = Fail err ->
     value (run h (Leased.NewExporter ctx etcdURL ttl) w) = (None, Some err)).
Proof.
  split; [| split; [| split]].
  - intros client r. subst r. to_calls.
    answer h. destruct x as [lease | err]; cbn; [| eauto].
    answer h. destruct x as [ch [err |]]; cbn; [eauto |].
    answer h. done.
  - intros etcdURL client r. subst r. to_calls.
    answer h. intros ->. cbn.
    answer h. destruct x as [lease | err]; cbn; [| eauto].
    answer h. destruct x as [ch [err |]]; cbn; [eauto |].
    answer h. done.
  - intros client r. subst r. to_calls.
    answer h. intros ->. cbn.
    answer h. destruct x as [lease | err]; cbn; [| eauto].
    answer h. destruct x as [ch [err |]]; cbn; [eauto |].
    answer h. done.
  - intros etcdURL err. to_calls. answer h. by intros ->.
Qed.

Lemma failed_init_returns_exporter_witness :
  (let r := run Sim.sim (Leased.NewExporterFromClient Sim.ctx0 Sim.client0 10)
                (Sim.set_down Sim.fresh Sim.grant_down) in
   exists e, fst (value r) = Some e /\
             Leased.conn e = Sim.client0 /\ Leased.leaseID e = 0 /\
             Leased.path e = "") /\
  (let r := run Sim.sim (Leased.NewExporter Sim.ctx0 "http://etcd:2379" 10)
                (Sim.set_down Sim.fresh Sim.keepalive_down) in
   exists e, fst (value r) = Some e /\
             Leased.conn e = ClientRef 1 /\ Leased.leaseID e = 0 /\
             Leased.path e = "").
Proof.
  split.
  - destruct (failed_init_returns_exporter Sim.sim
                (Sim.set_down Sim.fresh Sim.grant_down) Sim.ctx0 10)
      as (H1 & _).
    apply (H1 Sim.client0). vm_compute. discriminate.
  - destruct (failed_init_returns_exporter Sim.sim
                (Sim.set_down Sim.fresh Sim.keepalive_down) Sim.ctx0 10)
      as (_ & H2 & _).
    apply (H2 "http://etcd:2379" (ClientRef 1)).
    + reflexivity.
    + vm_compute. discriminate.
Defined.

(** C2, as the code has it.  Initialization does not look at the TTL: for
    every TTL, below 5 or not, the first call of lease initialization is
    the store's lease grant with that TTL unchanged, and in [NewExporter]
    and [NewFromDefault] that grant follows at once on the construction of
    the client.  Whenever the store grants the lease and sets up the
    keepalive stream, initialization succeeds and the exporter holds the
    identifier the store granted; and it succeeds in no other case. *)
Theorem init_forwards_ttl {W : Type} (h : Handler W) (w : W)
    (ctx : Context) (ttl : Z) :
  (forall (client : Client),
     let r := run h (Leased.NewExporterFromClient ctx client ttl) w in
     let grant := Client_Grant client ctx ttl in
     hd_error (calls r) = Some grant /\
     (forall lease ch,
        fst (h grant w) = Ok lease ->
        fst (h (Client_KeepAlive client Background (ID lease))
               (snd (h grant w))) = (ch, None) ->
        snd (value r) = None /\
        exists e, fst (value r) = Some e /\ Leased.leaseID e = ID lease /\
                  Leased.keepaliveResponses e = ch) /\
     (snd (value r) = None ->
        exists lease ch,
          fst (h grant w) = Ok lease /\
          fst (h (Client_KeepAlive client Background (ID lease))
                 (snd (h grant w))) = (ch, None) /\
          (Leased.leaseID <$> fst (value r)) = Some (ID lease))) /\
  (forall (etcdURL : string) (client : Client),
     fst (h (etcd_NewFromURL etcdURL) w) = Ok client ->
     take 2 (calls (run h (Leased.NewExporter ctx etcdURL ttl) w)) =
       [etcd_NewFromURL etcdURL; Client_Grant client ctx ttl]) /\
  (forall (client : Client),
     fst (h autoconf_DefaultEtcdClient w) = Ok client ->
     take 2 (calls (run h (Leased.NewFromDefault ctx ttl) w)) =
       [autoconf_DefaultEtcdClient; Client_Grant client ctx ttl]).
Proof.
  split; [| split].
  - intros client r grant. subst r grant.
    rewrite NewExporterFromClient_run, Leased_initLease_run. cbn zeta.
    cbn [Leased.conn Leased.new_ServiceExporter].
    answer h. destruct x as [lease | err]; cbn.
    + answer h. destruct x as [ch [err |]]; cbn.
      * split; [done | split; [| done]].
        intros lease' ch' [= <-]. rewrite E0. cbn. congruence.
      * split; [done | split].
        -- intros lease' ch' [= <-]. rewrite E0. cbn. intros [= <-]. eauto.
        -- intros _. exists lease, ch. rewrite E0. done.
    + split; [done | split; done].
  - intros etcdURL client. to_calls. answer h. intros ->.
    cbn [bind run value world calls]. answer h.
    by destruct (calls _).
  - intros client. to_calls. answer h. intros ->.
    cbn [bind run value world calls]. answer h.
    by destruct (calls _).
Qed.

Lemma init_forwards_ttl_witness :
  (let r := run Sim.sim (Leased.NewExporterFromClient Sim.ctx0 Sim.client0 10)
                Sim.fresh in
   snd (value r) = None /\
   exists e, fst (value r) = Some e /\
             Leased.leaseID e = Sim.lease_base + 1 /\
             Leased.keepaliveResponses e = ChanRef 2) /\
  take 2 (calls (run Sim.sim
                   (Leased.NewExporter Sim.ctx0 "http://etcd:2379" 1)
                   Sim.fresh)) =
    [etcd_NewFromURL "http://etcd:2379";
     Client_Grant (ClientRef 1) Sim.ctx0 1].
Proof.
  split.
  - destruct (init_forwards_ttl Sim.sim Sim.fresh Sim.ctx0 10) as (H1 & _).
    destruct (H1 Sim.client0) as (_ & H2 & _).
    apply (H2 {| ID := Sim.lease_base + 1 |} (ChanRef 2)); reflexivity.
  - destruct (init_forwards_ttl Sim.sim Sim.fresh Sim.ctx0 1) as (_ & H2 & _).
    apply (H2 "http://etcd:2379" (ClientRef 1)). reflexivity.
Defined.

(** C2 as stated fails.  A TTL of one second is not refused: the grant
    goes to the store with TTL 1, the store creates the lease, and
    initialization succeeds. *)
Lemma small_ttl_reaches_store :
  let r := run Sim.sim (Leased.NewExporterFromClient Sim.ctx0 Sim.client0 1)
               Sim.fresh in
  1 < 5 /\
  snd (value r) = None /\
  calls r =
    [Client_Grant Sim.client0 Sim.ctx0 1;
     Client_KeepAlive Sim.client0 Background (Sim.lease_base + 1);
     go_consumeKeepaliveResponses (ChanRef 2)] /\
  Sim.leases (world r) = [Sim.lease_base + 1].
Proof. vm_compute. repeat split. Qed.

(** * Further properties of the package *)

(** ** The TLS and HTTP conveniences *)

Lemma Leased_NewExportedTLSPort_run `{NetLib} {W : Type} (h : Handler W)
    (w : W) (e : Leased.ServiceExporter) (ctx : Context)
    (network ip servicename : string) (config : TLSConfig) :
  run h (Leased.NewExportedTLSPort e ctx network ip servicename config) w =
  let r0 := run h (Leased.NewExportedPort e ctx network ip servicename) w in
  mkRun (match got_error (value r0), got_listener (value r0) with
         | None, Some l0 => (Some (TLSListener l0 config), None)
         | err, _ => (None, err)
         end, receiver (value r0))
        (world r0) (calls r0).
Proof.
  unfold Leased.NewExportedTLSPort, mbind, Prog_bind.
  rewrite run_bind. cbn zeta.
  destruct (value (run h _ w)) as [[l err] e1].
  unfold got_error, got_listener, receiver.
  destruct err, l; cbn; by rewrite app_nil_r.
Qed.

Lemma Legacy_NewExportedTLSPort_run `{NetLib} {W : Type} (h : Handler W)
    (w : W) (self : Legacy.ServiceExporter)
    (network ip servicename : string) (config : TLSConfig) :
  run h (Legacy.NewExportedTLSPort self network ip servicename config) w =
  let r0 := run h (Legacy.NewExportedPort self network ip servicename) w in
  mkRun (match got_error (value r0), got_listener (value r0) with
         | None, Some l0 => (Some (TLSListener l0 config), None)
         | err, _ => (None, err)
         end, receiver (value r0))
        (world r0) (calls r0).
Proof.
  unfold Legacy.NewExportedTLSPort, mbind, Prog_bind.
  rewrite run_bind. cbn zeta.
  destruct (value (run h _ w)) as [[l err] e1].
  unfold got_error, got_listener, receiver.
  destruct err, l; cbn; by rewrite app_nil_r.
Qed.

(** X1. The lease-keyed [NewExportedTLSPort] adds no registration of its
    own: it issues the calls of [NewExportedPort] and no other, leaves the
    world and the exporter as [NewExportedPort] leaves them and returns its
    error.  Its listener is nil exactly when that of [NewExportedPort] is,
    and otherwise is that listener under the TLS configuration given,
    reporting the same address, which is the address published. *)
Theorem Leased_NewExportedTLSPort_delegates `{NetLib} {W : Type}
    (h : Handler W) (w : W) (e : Leased.ServiceExporter) (ctx : Context)
    (network ip servicename : string) (config : TLSConfig) :
  let r0 := run h (Leased.NewExportedPort e ctx network ip servicename) w in
  let r := run h (Leased.NewExportedTLSPort e ctx network ip servicename
                    config) w in
  calls r = calls r0 /\ world r = world r0 /\
  receiver (value r) = receiver (value r0) /\
  got_error (value r) = got_error (value r0) /\
  got_listener (value r) =
    (fun l => TLSListener l config) <$> got_listener (value r0) /\
  (Listener_Addr <$> got_listener (value r)) =
    (Listener_Addr <$> got_listener (value r0)).
Proof.
  cbn zeta. rewrite Leased_NewExportedTLSPort_run. cbn zeta.
  rewrite Leased_NewExportedPort_run. cbn zeta.
  answer h. destruct x as [l | err]; cbn; [| done].
  answer h. by destruct x as [err |].
Qed.

(** X2. The go-etcd [NewExportedTLSPort] delegates in the same way to the
    go-etcd [NewExportedPort]. *)
Theorem Legacy_NewExportedTLSPort_delegates `{NetLib} {W : Type}
    (h : Handler W) (w : W) (self : Legacy.ServiceExporter)
    (network ip servicename : string) (config : TLSConfig) :
  let r0 := run h (Legacy.NewExportedPort self network ip servicename) w in
  let r := run h (Legacy.NewExportedTLSPort self network ip servicename
                    config) w in
  calls r = calls r0 /\ world r = world r0 /\
  receiver (value r) = receiver (value r0) /\
  got_error (value r) = got_error (value r0) /\
  got_listener (value r) =
    (fun l => TLSListener l config) <$> got_listener (value r0) /\
  (Listener_Addr <$> got_listener (value r)) =
    (Listener_Addr <$> got_listener (value r0)).
Proof.
  cbn zeta. rewrite Legacy_NewExportedTLSPort_run. cbn zeta.
  rewrite Legacy_NewExportedPort_run. cbn zeta.
  answer h. destruct x as [l | err]; cbn; [| done].
  answer h. by destruct x as [resp | err].
Qed.

(** An export ends with a listener and no error or with an error and no
    listener, and deletes nothing. *)
Lemma Leased_NewExportedPort_outcome `{NetLib} {W : Type} (h : Handler W)
    (w : W) (e : Leased.ServiceExporter) (ctx : Context)
    (network ip service : string) :
  let r0 := run h (Leased.NewExportedPort e ctx network ip service) w in
  omap delete_key (calls r0) = [] /\
  match got_listener (value r0) with
  | None => is_Some (got_error (value r0))
  | Some _ => got_error (value r0) = None
  end.
Proof.
  cbn zeta. rewrite Leased_NewExportedPort_run. cbn zeta.
  unfold got_listener, got_error.
  answer h. destruct x as [l | err]; cbn; [| eauto].
  answer h. destruct x; cbn; eauto.
Qed.

Lemma Legacy_NewExportedPort_outcome `{NetLib} {W : Type} (h : Handler W)
    (w : W) (self : Legacy.ServiceExporter)
    (network ip servicename : string) :
  let r0 := run h (Legacy.NewExportedPort self network ip servicename) w in
  omap delete_key (calls r0) = [] /\
  match got_listener (value r0) with
  | None => is_Some (got_error (value r0))
  | Some _ => got_error (value r0) = None
  end.
Proof.
  cbn zeta. rewrite Legacy_NewExportedPort_run. cbn zeta.
  unfold got_listener, got_error.
  answer h. destruct x as [l | err]; cbn; [| eauto].
  answer h. destruct x; cbn; eauto.
Qed.

Lemma Leased_ListenAndServeNamedHTTP_run `{NetLib} {W : Type}
    (h : Handler W) (w : W) (e : Leased.ServiceExporter) (ctx : Context)
    (servicename addr : string) (handler : HTTPHandler) :
  run h (Leased.ListenAndServeNamedHTTP e ctx servicename addr handler) w =
  let r0 := run h (Leased.NewExportedPort e ctx "tcp" addr servicename) w in
  match got_error (value r0), got_listener (value r0) with
  | None, Some l0 =>
      let a := h (http_Serve l0 handler) (world r0) in
      mkRun (fst a, receiver (value r0)) (snd a)
            (calls r0 ++ [http_Serve l0 handler])%list
  | err, _ => mkRun (err, receiver (value r0)) (world r0) (calls r0)
  end.
Proof.
  unfold Leased.ListenAndServeNamedHTTP, mbind, Prog_bind.
  rewrite run_bind. cbn zeta.
  destruct (run h _ w) as [[[l err] e1] w1 cs].
  unfold got_error, got_listener, receiver. cbn [value world calls fst snd].
  destruct err, l; cbn; rewrite ?app_nil_r; try done.
  by destruct (h _ w1).
Qed.

Lemma Legacy_ListenAndServeNamedHTTP_run `{NetLib} {W : Type}
    (h : Handler W) (w : W) (self : Legacy.ServiceExporter)
    (servicename addr : string) (handler : HTTPHandler) :
  run h (Legacy.ListenAndServeNamedHTTP self servicename addr handler) w =
  let r0 := run h (Legacy.NewExportedPort self "tcp" addr servicename) w in
  match got_error (value r0), got_listener (value r0) with
  | None, Some l0 =>
      let a := h (http_Serve l0 handler) (world r0) in
      mkRun (fst a, receiver (value r0)) (snd a)
            (calls r0 ++ [http_Serve l0 handler])%list
  | err, _ => mkRun (err, receiver (value r0)) (world r0) (calls r0)
  end.
Proof.
  unfold Legacy.ListenAndServeNamedHTTP, mbind, Prog_bind.
  rewrite run_bind. cbn zeta.
  destruct (run h _ w) as [[[l err] e1] w1 cs].
  unfold got_error, got_listener, receiver. cbn [value world calls fst snd].
  destruct err, l; cbn; rewrite ?app_nil_r; try done.
  by destruct (h _ w1).
Qed.

(** X3. The lease-keyed [ListenAndServeNamedHTTP] exports on network
    ["tcp"] and then serves.  When the export returns no listener it returns
    the export's error, which is not nil, and never calls [http.Serve].
    When the export returns a listener it calls [http.Serve] once, on that
    very listener with the handler given, after the calls of the export, and
    returns what [http.Serve] returns.  In both cases the exporter is left
    as the export left it, and no delete is issued: the registration
    outlives the serving. *)
Theorem Leased_ListenAndServeNamedHTTP_serves_export `{NetLib} {W : Type}
    (h : Handler W) (w : W) (e : Leased.ServiceExporter) (ctx : Context)
    (servicename addr : string) (handler : HTTPHandler) :
  let r0 := run h (Leased.NewExportedPort e ctx "tcp" addr servicename) w in
  let r := run h (Leased.ListenAndServeNamedHTTP e ctx servicename addr
                    handler) w in
  snd (value r) = receiver (value r0) /\
  omap delete_key (calls r) = [] /\
  match got_listener (value r0) with
  | None =>
      calls r = calls r0 /\ world r = world r0 /\
      fst (value r) = got_error (value r0) /\ is_Some (fst (value r))
  | Some l =>
      calls r = (calls r0 ++ [http_Serve l handler])%list /\
      fst (value r) = fst (h (http_Serve l handler) (world r0)) /\
      world r = snd (h (http_Serve l handler) (world r0))
  end.
Proof.
  cbn zeta. rewrite Leased_ListenAndServeNamedHTTP_run. cbn zeta.
  destruct (Leased_NewExportedPort_outcome h w e ctx "tcp" addr servicename)
    as [Hdel Hout].
  cbn zeta in Hdel, Hout.
  set (r0 := run h _ w) in *.
  destruct (got_listener (value r0)) as [l |].
  - rewrite Hout. cbn [value world calls fst snd].
    by rewrite omap_app, Hdel.
  - destruct Hout as [err ->]. cbn [value world calls fst snd].
    repeat split; eauto.
Qed.

(** X4. The go-etcd [ListenAndServeNamedHTTP] behaves in the same way over
    the go-etcd [NewExportedPort]. *)
Theorem Legacy_ListenAndServeNamedHTTP_serves_export `{NetLib} {W : Type}
    (h : Handler W) (w : W) (self : Legacy.ServiceExporter)
    (servicename addr : string) (handler : HTTPHandler) :
  let r0 := run h (Legacy.NewExportedPort self "tcp" addr servicename) w in
  let r := run h (Legacy.ListenAndServeNamedHTTP self servicename addr
                    handler) w in
  snd (value r) = receiver (value r0) /\
  omap delete_key (calls r) = [] /\
  match got_listener (value r0) with
  | None =>
      calls r = calls r0 /\ world r = world r0 /\
      fst (value r) = got_error (value r0) /\ is_Some (fst (value r))
  | Some l =>
      calls r = (calls r0 ++ [http_Serve l handler])%list /\
      fst (value r) = fst (h (http_Serve l handler) (world r0)) /\
      world r = snd (h (http_Serve l handler) (world r0))
  end.
Proof.
  cbn zeta. rewrite Legacy_ListenAndServeNamedHTTP_run. cbn zeta.
  destruct (Legacy_NewExportedPort_outcome h w self "tcp" addr servicename)
    as [Hdel Hout].
  cbn zeta in Hdel, Hout.
  set (r0 := run h _ w) in *.
  destruct (got_listener (value r0)) as [l |].
  - rewrite Hout. cbn [value world calls fst snd].
    by rewrite omap_app, Hdel.
  - destruct Hout as [err ->]. cbn [value world calls fst snd].
    repeat split; eauto.
Qed.

(** ** Initialization *)

(** X5. The calls of [initLease], in order.  It asks for the lease under
    the caller's context; only if that is granted does it ask for the
    keepalive stream, under the background context and for the lease just
    granted, in the world the grant left; only if that is set up does it
    start the goroutine, on the very channel [KeepAlive] answered with,
    which is the channel it has stored in the exporter, next to the
    identifier of the granted lease.  After a refused grant it returns the
    grant's error and the exporter is untouched; after a refused keepalive
    it returns the keepalive's error, its channel field has been
    overwritten with the channel [KeepAlive] returned with the error, and
    its lease identifier has not been set.  In no case are the connection
    and the last published path changed. *)
Theorem initLease_protocol {W : Type} (h : Handler W) (w : W)
    (e : Leased.ServiceExporter) (ctx : Context) (ttl : Z) :
  let r := run h (Leased.initLease e ctx ttl) w in
  let e' := snd (value r) in
  let grant := Client_Grant (Leased.conn e) ctx ttl in
  let keep (lease : LeaseGrantResponse) :=
    Client_KeepAlive (Leased.conn e) Background (ID lease) in
  Leased.conn e' = Leased.conn e /\ Leased.path e' = Leased.path e /\
  match fst (value r) with
  | None =>
      exists lease ch,
        fst (h grant w) = Ok lease /\
        fst (h (keep lease) (snd (h grant w))) = (ch, None) /\
        calls r = [grant; keep lease; go_consumeKeepaliveResponses ch] /\
        e' = Leased.set_leaseID (Leased.set_keepaliveResponses e ch)
               (ID lease) /\
        world r =
          snd (h (go_consumeKeepaliveResponses ch)
                 (snd (h (keep lease) (snd (h grant w)))))
  | Some err =>
      (fst (h grant w) = Fail err /\ calls r = [grant] /\ e' = e /\
       world r = snd (h grant w)) \/
      (exists lease ch,
         fst (h grant w) = Ok lease /\
         fst (h (keep lease) (snd (h grant w))) = (ch, Some err) /\
         calls r = [grant; keep lease] /\
         e' = Leased.set_keepaliveResponses e ch /\
         world r = snd (h (keep lease) (snd (h grant w))))
  end.
Proof.
  cbn zeta. rewrite Leased_initLease_run. cbn zeta.
  answer h. destruct x as [lease | err]; cbn.
  2:{ split; [done | split; [done |]]. by left. }
  answer h. destruct x as [ch [err |]]; cbn.
  - split; [done | split; [done |]]. right. exists lease, ch.
    rewrite E0. done.
  - split; [done | split; [done |]]. exists lease, ch.
    rewrite E0. cbn. done.
Qed.

Lemma NewFromDefault_run {W : Type} (h : Handler W) (w : W)
    (ctx : Context) (ttl : Z) :
  run h (Leased.NewFromDefault ctx ttl) w =
  let a := h autoconf_DefaultEtcdClient w in
  match fst a with
  | Fail err => mkRun (None, Some err) (snd a) [autoconf_DefaultEtcdClient]
  | Ok client =>
      let r0 := run h (Leased.NewExporterFromClient ctx client ttl) (snd a) in
      mkRun (value r0) (world r0) (autoconf_DefaultEtcdClient :: calls r0)
  end.
Proof.
  unfold Leased.NewFromDefault, Leased.NewExporterFromClient,
    mbind, Prog_bind.
  cbn [bind call run]. destruct (h autoconf_DefaultEtcdClient w) as [x w1].
  cbn [fst snd]. destruct x as [client | err]; [| done].
  cbn [bind]. reflexivity.
Qed.

Lemma NewExporter_run {W : Type} (h : Handler W) (w : W)
    (ctx : Context) (etcdURL : string) (ttl : Z) :
  run h (Leased.NewExporter ctx etcdURL ttl) w =
  let a := h (etcd_NewFromURL etcdURL) w in
  match fst a with
  | Fail err => mkRun (None, Some err) (snd a) [etcd_NewFromURL etcdURL]
  | Ok client =>
      let r0 := run h (Leased.NewExporterFromClient ctx client ttl) (snd a) in
      mkRun (value r0) (world r0) (etcd_NewFromURL etcdURL :: calls r0)
  end.
Proof.
  unfold Leased.NewExporter, Leased.NewExporterFromClient, mbind, Prog_bind.
  cbn [bind call run]. destruct (h (etcd_NewFromURL etcdURL) w) as [x w1].
  cbn [fst snd]. destruct x as [client | err]; [| done].
  cbn [bind]. reflexivity.
Qed.

(** X6. [NewExporter] is the construction of the client from the URL
    followed by [NewExporterFromClient] on the client built: same result,
    same world, the same calls after the one that builds the client.  When
    the client cannot be built it returns nil with that error and issues no
    other call, so no lease is asked for.  [NewFromDefault] is the same over
    the autoconfigured client. *)
Theorem NewExporter_builds_client_then_inits {W : Type} (h : Handler W)
    (w : W) (ctx : Context) (ttl : Z) :
  (forall (etcdURL : string),
     let a := h (etcd_NewFromURL etcdURL) w in
     run h (Leased.NewExporter ctx etcdURL ttl) w =
     match fst a with
     | Fail err => mkRun (None, Some err) (snd a) [etcd_NewFromURL etcdURL]
     | Ok client =>
         let r0 := run h (Leased.NewExporterFromClient ctx client ttl)
                       (snd a) in
         mkRun (value r0) (world r0) (etcd_NewFromURL etcdURL :: calls r0)
     end) /\
  (let a := h autoconf_DefaultEtcdClient w in
   run h (Leased.NewFromDefault ctx ttl) w =
   match fst a with
   | Fail err => mkRun (None, Some err) (snd a) [autoconf_DefaultEtcdClient]
   | Ok client =>
       let r0 := run h (Leased.NewExporterFromClient ctx client ttl)
                     (snd a) in
       mkRun (value r0) (world r0) (autoconf_DefaultEtcdClient :: calls r0)
   end).
Proof.
  split; [intros etcdURL; apply NewExporter_run | apply NewFromDefault_run].
Qed.

(** ** Keys are told apart *)

Lemma string_app_length (s t : string) :
  String.length (s ++ t) = (String.length s + String.length t)%nat.
Proof. induction s as [| a s IH]; simpl; [done | by f_equal]. Qed.

Lemma string_app_inv_head (s t1 t2 : string) : s ++ t1 = s ++ t2 -> t1 = t2.
Proof. induction s as [| a s IH]; cbn; [done |]. intros [= Hs]. auto. Qed.

Lemma string_app_inv_tail (t s1 s2 : string) : s1 ++ t = s2 ++ t -> s1 = s2.
Proof.
  revert s2. induction s1 as [| a s1 IH]; intros [| b s2]; simpl; try done.
  - intros Ht. apply (f_equal String.length) in Ht. simpl in Ht.
    rewrite !string_app_length in Ht. simpl in Ht. lia.
  - intros Ht. apply (f_equal String.length) in Ht. simpl in Ht.
    rewrite !string_app_length in Ht. simpl in Ht. lia.
  - intros [= -> Hs]. f_equal. by apply IH.
Qed.

Lemma to_hex_uint_not_Nil (n : N) : N.to_hex_uint n <> Hexadecimal.Nil.
Proof.
  intros Hn.
  pose proof (HexadecimalN.Unsigned.to_of (N.to_hex_uint n)) as E.
  rewrite HexadecimalN.Unsigned.of_to, Hn in E. discriminate E.
Qed.

Lemma hex_of_N_inj (n1 n2 : N) : hex_of_N n1 = hex_of_N n2 -> n1 = n2.
Proof.
  unfold hex_of_N. intros Hs.
  apply (f_equal HexadecimalString.NilZero.uint_of_string) in Hs.
  rewrite !HexadecimalString.NilZero.usu in Hs
    by apply to_hex_uint_not_Nil.
  injection Hs as Hs. by apply HexadecimalN.Unsigned.to_uint_inj.
Qed.

Lemma hex_of_N_starts (n : N) : starts_off " " "-" (hex_of_N n).
Proof.
  unfold hex_of_N. destruct (N.to_hex_uint n); cbn; split; discriminate.
Qed.

Lemma fmt_x_starts (v : Z) : starts_off " " " " (fmt_x v).
Proof.
  unfold fmt_x. destruct (v <? 0)%Z; cbn; [split; discriminate |].
  pose proof (hex_of_N_starts (Z.abs_N v)) as Hs.
  destruct (hex_of_N (Z.abs_N v)); cbn in *; [done |].
  destruct Hs as [Hs _]. by split.
Qed.

Lemma fmt_x_inj (v1 v2 : Z) : fmt_x v1 = fmt_x v2 -> v1 = v2.
Proof.
  unfold fmt_x.
  destruct (v1 <? 0)%Z eqn:E1, (v2 <? 0)%Z eqn:E2; cbn; intros Hs.
  - injection Hs as Hs. apply hex_of_N_inj in Hs. lia.
  - pose proof (hex_of_N_starts (Z.abs_N v2)) as Hh.
    rewrite <- Hs in Hh. destruct Hh as [_ Hh]. by destruct Hh.
  - pose proof (hex_of_N_starts (Z.abs_N v1)) as Hh.
    rewrite Hs in Hh. destruct Hh as [_ Hh]. by destruct Hh.
  - apply hex_of_N_inj in Hs. lia.
Qed.

Lemma spaces_app_inj (n m : nat) (x y : string) :
  starts_off " " " " x -> starts_off " " " " y ->
  spaces n ++ x = spaces m ++ y -> x = y.
Proof.
  intros Hx Hy. revert m.
  induction n as [| n IH]; intros [| m] Hs.
  - exact Hs.
  - change (x = String " " (spaces m ++ y)) in Hs.
    subst x. destruct Hx as [Hx _]. by destruct Hx.
  - change (String " " (spaces n ++ x) = y) in Hs.
    subst y. destruct Hy as [Hy _]. by destruct Hy.
  - injection Hs as Hs. eauto.
Qed.

Lemma fmt_16x_inj (v1 v2 : Z) : fmt_16x v1 = fmt_16x v2 -> v1 = v2.
Proof.
  unfold fmt_16x, pad_left. intros Hs.
  apply fmt_x_inj. eapply spaces_app_inj; eauto using fmt_x_starts.
Qed.

Lemma export_path_inj_lease (service : string) (id id' : LeaseID) :
  Leased.export_path service id = Leased.export_path service id' -> id = id'.
Proof.
  unfold Leased.export_path. intros Hs.
  apply string_app_inv_head in Hs. apply string_app_inv_head in Hs.
  apply string_app_inv_head in Hs. by apply fmt_16x_inj.
Qed.

Lemma export_path_inj_service (service service' : string) (id : LeaseID) :
  Leased.export_path service id = Leased.export_path service' id ->
  service = service'.
Proof.
  unfold Leased.export_path. intros Hs.
  apply string_app_inv_head in Hs. by apply string_app_inv_tail in Hs.
Qed.

(** X7. The keys of the lease-keyed package tell leases and services
    apart: for one service name two different lease identifiers give two
    different keys, so exporters holding different leases never write to
    one another's key; and under one lease two different service names give
    two different keys. *)
Theorem export_path_injective (service service' : string)
    (id id' : LeaseID) :
  (id <> id' ->
   Leased.export_path service id <> Leased.export_path service id') /\
  (service <> service' ->
   Leased.export_path service id <> Leased.export_path service' id).
Proof.
  split; intros Hne Hs; apply Hne.
  - by apply export_path_inj_lease in Hs.
  - by apply export_path_inj_service in Hs.
Qed.

Lemma export_path_injective_witness :
  Leased.export_path "foo" 1 <> Leased.export_path "foo" 2 /\
  Leased.export_path "foo" 1 <> Leased.export_path "bar" 1.
Proof.
  split.
  - apply (proj1 (export_path_injective "foo" "foo" 1 2)). lia.
  - apply (proj2 (export_path_injective "foo" "bar" 1 1)). discriminate.
Defined.

(** ** Export and unexport together *)

Lemma export_path_nonempty (service : string) (id : LeaseID) :
  Leased.export_path service id <> "".
Proof. discriminate. Qed.

Lemma sim_delete_kv (conn : Client) (ctx : Context) (key : string)
    (w w' : Sim.World) :
  Sim.sim (Client_Delete conn ctx key) w = (None, w') ->
  Sim.kv w' = delete key (Sim.kv w).
Proof.
  unfold Sim.sim. destruct (Sim.down w _); cbn; [discriminate |].
  intros [= <-]. reflexivity.
Qed.

Lemma export_then_unexport_run `{NetLib} {W : Type} (h : Handler W) (w : W)
    (e : Leased.ServiceExporter) (ctx : Context)
    (network ip service : string) (ctx' : Context) :
  run h (export_then_unexport e ctx network ip service ctx') w =
  let ra := run h (Leased.NewExportedPort e ctx network ip service) w in
  let rb := run h (Leased.UnexportPort (receiver (value ra)) ctx')
                (world ra) in
  mkRun (fst (value ra), fst (value rb), snd (value rb)) (world rb)
        (calls ra ++ calls rb)%list.
Proof.
  unfold export_then_unexport, mbind, Prog_bind. rewrite run_bind. cbn zeta.
  destruct (run h _ w) as [[res1 e1] w1 cs1].
  cbn [value world calls]. rewrite run_bind. cbn zeta.
  unfold receiver. cbn [snd fst].
  destruct (run h _ w1) as [[err e2] w2 cs2].
  cbn. by rewrite app_nil_r.
Qed.

(** X8. An unexport after a successful export deletes the key that export
    wrote: the calls are the listen, the put of the listener's address at
    the key of the service under the exporter's lease, and the delete of
    that same key on the same connection.  In a store where a put inserts
    and a delete removes, the key is gone afterwards, and a keyspace that
    did not hold the key beforehand is back to what it was. *)
Theorem unexport_deletes_exported_key `{NetLib} (e : Leased.ServiceExporter)
    (ctx : Context) (network ip service : string) (ctx' : Context) :
  let key := Leased.export_path service (Leased.leaseID e) in
  (forall (W : Type) (h : Handler W) (w : W) (l : Listener),
     let r := run h (export_then_unexport e ctx network ip service ctx') w in
     fst (fst (value r)) = (Some l, None) ->
     calls r =
       [net_Listen network (Leased.listen_address ip);
        Client_Put (Leased.conn e) ctx key (Listener_Addr l)
          (Leased.leaseID e);
        Client_Delete (Leased.conn e) ctx' key] /\
     Leased.path (snd (value r)) = key) /\
  (forall (w : Sim.World) (l : Listener),
     let r := run Sim.sim
                (export_then_unexport e ctx network ip service ctx') w in
     fst (value r) = ((Some l, None), None) ->
     Sim.kv (world r) = delete key (Sim.kv w) /\
     Sim.kv (world r) !! key = None /\
     (Sim.kv w !! key = None -> Sim.kv (world r) = Sim.kv w)).
Proof.
  intros key. split.
  - intros W h w l r. subst r. rewrite export_then_unexport_run. cbn zeta.
    rewrite Leased_NewExportedPort_run. cbn zeta.
    answer h. destruct x as [l0 | err]; cbn [value world calls fst snd];
      [| discriminate].
    answer h. destruct x as [err |]; cbn [value world calls fst snd];
      [discriminate |].
    intros [= <-]. unfold receiver. cbn [snd].
    rewrite Leased_UnexportPort_nonempty by apply export_path_nonempty.
    done.
  - intros w l r. subst r. rewrite export_then_unexport_run. cbn zeta.
    set (ra := run Sim.sim (Leased.NewExportedPort e ctx network ip service)
                   w).
    cbn [value world calls fst snd]. intros Hv.
    apply pair_equal_spec in Hv as [Ha Hb].
    pose proof (sim_export_kv w e ctx network ip service l Ha) as Hkv.
    fold ra in Hkv.
    assert (Hrec : receiver (value ra) = Leased.set_path e key).
    { revert Ha. unfold ra. rewrite Leased_NewExportedPort_run. cbn zeta.
      destruct (Sim.sim (net_Listen _ _) w) as [[l0 | err] w1];
        cbn [value fst snd]; [| discriminate].
      destruct (Sim.sim (Client_Put _ _ _ _ _) w1) as [[err |] w2];
        cbn [value fst snd]; [discriminate | done]. }
    rewrite Hrec in *.
    rewrite Leased_UnexportPort_nonempty in * by apply export_path_nonempty.
    cbn zeta in *. cbn [value world fst snd Leased.conn Leased.path
                          Leased.set_path] in *.
    destruct (Sim.sim (Client_Delete _ _ _) (world ra)) as [x w3] eqn:Ed.
    cbn [fst snd] in *. subst x.
    apply sim_delete_kv in Ed. rewrite Ed, Hkv, delete_insert_eq.
    split; [done |]. split; [apply lookup_delete_eq |].
    apply delete_id.
Qed.

Lemma unexport_deletes_exported_key_witness :
  (let r := run Sim.sim
              (export_then_unexport Sim.unpublished Sim.ctx0 "tcp"
                 "127.0.0.1" "foo" Background) Sim.fresh in
   calls r =
     [net_Listen "tcp" "127.0.0.1:0";
      Client_Put Sim.client0 Sim.ctx0 "/ns/service/foo/694d5765fc715001"
        "127.0.0.1:49153" (Sim.lease_base + 1);
      Client_Delete Sim.client0 Background
        "/ns/service/foo/694d5765fc715001"] /\
   Leased.path (snd (value r)) = "/ns/service/foo/694d5765fc715001") /\
  Sim.kv
    (world (run Sim.sim
              (export_then_unexport Sim.unpublished Sim.ctx0 "tcp"
                 "127.0.0.1" "foo" Background) Sim.fresh)) = ∅.
Proof.
  destruct (unexport_deletes_exported_key Sim.unpublished Sim.ctx0 "tcp"
              "127.0.0.1" "foo" Background) as [HA HB].
  split.
  - apply (HA Sim.World Sim.sim Sim.fresh (NetListener 1 "127.0.0.1:49153")).
    reflexivity.
  - destruct (HB Sim.fresh (NetListener 1 "127.0.0.1:49153"))
      as (_ & _ & H3); [reflexivity |].
    apply H3. reflexivity.
Defined.

Lemma Leased_NewExportedPort_success `{NetLib} {W : Type} (h : Handler W)
    (w : W) (e : Leased.ServiceExporter) (ctx : Context)
    (network ip service : string) (l : Listener) :
  fst (value (run h (Leased.NewExportedPort e ctx network ip service) w)) =
    (Some l, None) ->
  calls (run h (Leased.NewExportedPort e ctx network ip service) w) =
    [net_Listen network (Leased.listen_address ip);
     Client_Put (Leased.conn e) ctx
       (Leased.export_path service (Leased.leaseID e)) (Listener_Addr l)
       (Leased.leaseID e)] /\
  receiver (value (run h (Leased.NewExportedPort e ctx network ip service)
                      w)) =
    Leased.set_path e (Leased.export_path service (Leased.leaseID e)).
Proof.
  rewrite Leased_NewExportedPort_run. cbn zeta.
  answer h. destruct x as [l0 | err]; cbn [value world calls fst snd];
    [| discriminate].
  answer h. destruct x as [err |]; cbn [value world calls fst snd];
    [discriminate |].
  by intros [= <-].
Qed.

Lemma export_two_then_unexport_run `{NetLib} {W : Type} (h : Handler W)
    (w : W) (e : Leased.ServiceExporter) (ctx : Context)
    (network ip1 service1 ip2 service2 : string) :
  run h (export_two_then_unexport e ctx network ip1 service1 ip2 service2) w =
  let ra := run h (Leased.NewExportedPort e ctx network ip1 service1) w in
  let rb := run h (Leased.NewExportedPort (receiver (value ra)) ctx network
                     ip2 service2) (world ra) in
  let rc := run h (Leased.UnexportPort (receiver (value rb)) ctx)
                (world rb) in
  mkRun (fst (value ra), fst (value rb), fst (value rc), snd (value rc))
        (world rc) (calls ra ++ calls rb ++ calls rc)%list.
Proof.
  unfold export_two_then_unexport, mbind, Prog_bind.
  rewrite run_bind. cbn zeta.
  destruct (run h _ w) as [[res1 e1] w1 cs1].
  cbn [value world calls]. rewrite run_bind. cbn zeta.
  unfold receiver. cbn [snd fst].
  destruct (run h _ w1) as [[res2 e2] w2 cs2].
  cbn [value world calls]. rewrite run_bind. cbn zeta. cbn [snd fst].
  destruct (run h _ w2) as [[err e3] w3 cs3].
  cbn. by rewrite app_nil_r.
Qed.

(** X9. Only the most recent export is remembered.  After two successful
    exports on one exporter an unexport issues a single delete, of the key
    of the second export; the key of the first export is written and never
    deleted.  In a store where a put inserts and a delete removes, and for
    two different service names, the first registration is still in the
    store after the unexport and the second is gone. *)
Theorem unexport_targets_latest_export `{NetLib}
    (e : Leased.ServiceExporter) (ctx : Context)
    (network ip1 service1 ip2 service2 : string) :
  let key1 := Leased.export_path service1 (Leased.leaseID e) in
  let key2 := Leased.export_path service2 (Leased.leaseID e) in
  (forall (W : Type) (h : Handler W) (w : W) (l1 l2 : Listener),
     let r := run h (export_two_then_unexport e ctx network ip1 service1 ip2
                       service2) w in
     fst (fst (value r)) = ((Some l1, None), (Some l2, None)) ->
     omap put_key (calls r) = [key1; key2] /\
     omap delete_key (calls r) = [key2] /\
     Leased.path (snd (value r)) = key2) /\
  (forall (w : Sim.World) (l1 l2 : Listener),
     let r := run Sim.sim
                (export_two_then_unexport e ctx network ip1 service1 ip2
                   service2) w in
     service1 <> service2 ->
     fst (value r) = ((Some l1, None), (Some l2, None), None) ->
     Sim.kv (world r) !! key1 = Some (Listener_Addr l1, Leased.leaseID e) /\
     Sim.kv (world r) !! key2 = None).
Proof.
  intros key1 key2. split.
  - intros W h w l1 l2 r. subst r.
    rewrite export_two_then_unexport_run. cbn zeta.
    set (ra := run h (Leased.NewExportedPort e ctx network ip1 service1) w).
    cbn [value world calls fst snd]. intros Hv.
    apply pair_equal_spec in Hv as [Ha Hb].
    destruct (Leased_NewExportedPort_success h w e ctx network ip1 service1
                l1 Ha) as [Hca Hra].
    fold ra in Hca, Hra. rewrite Hra in *.
    destruct (Leased_NewExportedPort_success h _ _ ctx network ip2 service2
                l2 Hb) as [Hcb Hrb].
    rewrite Hrb, Hca, Hcb.
    rewrite Leased_UnexportPort_nonempty by apply export_path_nonempty.
    done.
  - intros w l1 l2 r Hne. subst r.
    rewrite export_two_then_unexport_run. cbn zeta.
    set (ra := run Sim.sim (Leased.NewExportedPort e ctx network ip1
                              service1) w).
    cbn [value world calls fst snd]. intros Hv.
    apply pair_equal_spec in Hv as [Hv Hc].
    apply pair_equal_spec in Hv as [Ha Hb].
    pose proof (sim_export_kv w e ctx network ip1 service1 l1 Ha) as Hka.
    destruct (Leased_NewExportedPort_success Sim.sim w e ctx network ip1
                service1 l1 Ha) as [_ Hra].
    fold ra in Hka, Hra. rewrite Hra in *.
    pose proof (sim_export_kv _ _ ctx network ip2 service2 l2 Hb) as Hkb.
    destruct (Leased_NewExportedPort_success Sim.sim _ _ ctx network ip2
                service2 l2 Hb) as [_ Hrb].
    set (rb := run Sim.sim (Leased.NewExportedPort _ ctx network ip2
                              service2) (world ra)) in *.
    rewrite Hrb in *.
    rewrite Leased_UnexportPort_nonempty in * by apply export_path_nonempty.
    cbn zeta in *. cbn [value world fst snd Leased.conn Leased.path
                          Leased.leaseID Leased.set_path] in *.
    destruct (Sim.sim (Client_Delete _ _ _) (world rb)) as [x w3] eqn:Ed.
    cbn [fst snd] in *. subst x.
    apply sim_delete_kv in Ed. rewrite Ed, Hkb, Hka.
    fold key1 key2.
    assert (Hk : key2 <> key1).
    { intros Hk. apply export_path_inj_service in Hk. by subst. }
    split.
    + by rewrite lookup_delete_ne, lookup_insert_ne, lookup_insert_eq.
    + apply lookup_delete_eq.
Qed.

Lemma unexport_targets_latest_export_witness :
  let r := run Sim.sim
             (export_two_then_unexport Sim.unpublished Sim.ctx0 "tcp"
                "127.0.0.1" "foo" "127.0.0.1:9000" "bar") Sim.fresh in
  (omap put_key (calls r) =
     ["/ns/service/foo/694d5765fc715001";
      "/ns/service/bar/694d5765fc715001"] /\
   omap delete_key (calls r) = ["/ns/service/bar/694d5765fc715001"] /\
   Leased.path (snd (value r)) = "/ns/service/bar/694d5765fc715001") /\
  (Sim.kv (world r) !! "/ns/service/foo/694d5765fc715001" =
     Some ("127.0.0.1:49153", Sim.lease_base + 1) /\
   Sim.kv (world r) !! "/ns/service/bar/694d5765fc715001" = None).
Proof.
  destruct (unexport_targets_latest_export Sim.unpublished Sim.ctx0 "tcp"
              "127.0.0.1" "foo" "127.0.0.1:9000" "bar") as [HA HB].
  split.
  - apply (HA Sim.World Sim.sim Sim.fresh (NetListener 1 "127.0.0.1:49153")
              (NetListener 2 "127.0.0.1:9000")).
    reflexivity.
  - apply (HB Sim.fresh (NetListener 1 "127.0.0.1:49153")
              (NetListener 2 "127.0.0.1:9000")).
    + discriminate.
    + reflexivity.
Defined.

Lemma legacy_export_then_unexport_run `{NetLib} {W : Type} (h : Handler W)
    (w : W) (self : Legacy.ServiceExporter)
    (network ip servicename : string) :
  run h (legacy_export_then_unexport self network ip servicename) w =
  let ra := run h (Legacy.NewExportedPort self network ip servicename) w in
  let rb := run h (Legacy.UnexportPort (receiver (value ra))) (world ra) in
  mkRun (fst (value ra), fst (value rb), snd (value rb)) (world rb)
        (calls ra ++ calls rb)%list.
Proof.
  unfold legacy_export_then_unexport, mbind, Prog_bind.
  rewrite run_bind. cbn zeta.
  destruct (run h _ w) as [[res1 e1] w1 cs1].
  cbn [value world calls]. rewrite run_bind. cbn zeta.
  unfold receiver. cbn [snd fst].
  destruct (run h _ w1) as [[err e2] w2 cs2].
  cbn. by rewrite app_nil_r.
Qed.

Lemma Legacy_UnexportPort_deletes {W : Type} (h : Handler W) (w : W)
    (self : Legacy.ServiceExporter) :
  omap delete_key (calls (run h (Legacy.UnexportPort self) w)) =
    (if (String.length (Legacy.path self) =? 0)%nat then []
     else [Legacy.path self]) /\
  snd (value (run h (Legacy.UnexportPort self) w)) = self.
Proof.
  destruct (String.length (Legacy.path self) =? 0)%nat eqn:Hl.
  - apply length_zero_empty in Hl. by rewrite Legacy_UnexportPort_empty.
  - rewrite Legacy_UnexportPort_nonempty; [done |].
    intros Hp. apply length_zero_empty in Hp. congruence.
Qed.

(** X10. In the go-etcd package the key an unexport deletes is the key
    the store named, not the directory written to.  After an export whose
    bind and [AddChild] succeed, the last published path is the key of the
    node in the store's response, and a following unexport deletes exactly
    that key (nothing if that key is the empty string).  When the response
    carries no node the export still succeeds, but the path is left as it
    was, and the unexport acts on that earlier path: it deletes it, or
    issues nothing when there was none. *)
Theorem legacy_unexport_deletes_store_key `{NetLib} {W : Type}
    (h : Handler W) (w : W) (self : Legacy.ServiceExporter)
    (network ip servicename : string) (l : Listener) (resp : Response) :
  let listen := net_Listen network (Legacy.listen_address ip) in
  let add :=
    Client_AddChild (Legacy.conn self) (Legacy.export_path servicename)
      (Legacy.listen_address ip) 0 in
  let r := run h (legacy_export_then_unexport self network ip servicename) w in
  let target :=
    match Node_ resp with
    | Some node => Key node
    | None => Legacy.path self
    end in
  fst (h listen w) = Ok l ->
  fst (h add (snd (h listen w))) = Ok resp ->
  fst (fst (value r)) = (Some l, None) /\
  Legacy.path (snd (value r)) = target /\
  omap delete_key (calls r) =
    (if (String.length target =? 0)%nat then [] else [target]).
Proof.
  intros listen add r target Hl Ha. subst listen add r.
  rewrite legacy_export_then_unexport_run. cbn zeta.
  rewrite Legacy_NewExportedPort_run. cbn zeta. rewrite Hl, Ha.
  cbn [value world calls fst snd]. unfold receiver. cbn [snd].
  match goal with
  | |- context [run h (Legacy.UnexportPort ?s) ?w1] =>
      destruct (Legacy_UnexportPort_deletes h w1 s) as [Hd Hs]
  end.
  rewrite Hs, omap_app, Hd. subst target.
  by destruct (Node_ resp).
Qed.

Lemma legacy_unexport_deletes_store_key_witness :
  let r := run Sim.sim
             (legacy_export_then_unexport Sim.legacy_unpublished "tcp"
                "127.0.0.1" "foo") Sim.fresh in
  fst (fst (value r)) = (Some (NetListener 1 "127.0.0.1:49153"), None) /\
  Legacy.path (snd (value r)) = "/ns/service/foo/2" /\
  omap delete_key (calls r) = ["/ns/service/foo/2"].
Proof.
  apply (legacy_unexport_deletes_store_key Sim.sim Sim.fresh
           Sim.legacy_unpublished "tcp" "127.0.0.1" "foo"
           (NetListener 1 "127.0.0.1:49153")
           {| Node_ := Some {| Key := "/ns/service/foo/2" |} |});
    reflexivity.
Defined.

(** ** What a sequence of operations may delete *)

Lemma do_op_deletes `{NetLib} {W : Type} (h : Handler W) (w : W)
    (e : Leased.ServiceExporter) (o : Op) :
  let r := run h (do_op e o) w in
  Leased.conn (value r) = Leased.conn e /\
  Leased.keepaliveResponses (value r) = Leased.keepaliveResponses e /\
  (Leased.path (value r) = Leased.path e \/
   exists svc, op_service o = Some svc /\
               Leased.path (value r) =
                 Leased.export_path svc (Leased.leaseID e)) /\
  forall k, k ∈ omap delete_key (calls r) -> k <> "" /\ k = Leased.path e.
Proof.
  assert (Hnone : forall k : string, k ∈ @nil string ->
                                     k <> "" /\ k = Leased.path e).
  { intros k Hk. by apply elem_of_nil in Hk. }
  destruct o; unfold do_op; cbn zeta.
  - to_calls. answer h. destruct x; cbn [bind run value world calls];
      [answer h; destruct x |]; cbn;
      (split; [done | split; [done | split; [eauto | exact Hnone]]]).
  - to_calls. answer h. destruct x; cbn [bind run value world calls];
      [answer h; destruct x |]; cbn;
      (split; [done | split; [done | split; [eauto | exact Hnone]]]).
  - to_calls. answer h. destruct x; cbn [bind run value world calls];
      [answer h; destruct x; cbn [bind run value world calls];
       [| answer h] |]; cbn;
      (split; [done | split; [done | split; [eauto | exact Hnone]]]).
  - unfold Leased.UnexportPort.
    destruct (String.length (Leased.path e) =? 0)%nat eqn:Hl.
    + cbn. split; [done | split; [done | split; [eauto | exact Hnone]]].
    + to_calls. answer h.
      assert (Hp : Leased.path e <> "").
      { intros Hp. apply length_zero_empty in Hp. congruence. }
      destruct x; cbn; (split; [done | split; [done | split; [eauto |]]]);
        intros k Hk; apply list_elem_of_singleton in Hk; by subst.
Qed.

Lemma do_ops_deletes `{NetLib} {W : Type} (h : Handler W) (os : list Op) :
  forall (w : W) (e : Leased.ServiceExporter),
    let r := run h (do_ops e os) w in
    Leased.conn (value r) = Leased.conn e /\
    Leased.keepaliveResponses (value r) = Leased.keepaliveResponses e /\
    (Leased.path (value r) = Leased.path e \/
     exists svc, Some svc ∈ op_service <$> os /\
                 Leased.path (value r) =
                   Leased.export_path svc (Leased.leaseID e)) /\
    forall k, k ∈ omap delete_key (calls r) ->
      k <> "" /\
      (k = Leased.path e \/
       exists svc, Some svc ∈ op_service <$> os /\
                   k = Leased.export_path svc (Leased.leaseID e)).
Proof.
  induction os as [| o os IH]; intros w e; cbn zeta.
  - cbn. split; [done | split; [done | split; [by left |]]].
    intros k Hk. by apply elem_of_nil in Hk.
  - cbn [do_ops]. unfold mbind, Prog_bind. rewrite run_bind. cbn zeta.
    cbn [value calls].
    destruct (do_op_deletes h w e o) as (Hc & Hka & Hp & Hd).
    destruct (do_op_lease h w e o) as [Hid _].
    cbn zeta in Hc, Hka, Hp, Hd.
    set (r1 := run h (do_op e o) w) in *.
    destruct (IH (world r1) (value r1)) as (Hc' & Hka' & Hp' & Hd').
    cbn zeta in Hc', Hka', Hp', Hd'. rewrite Hid in *.
    split; [congruence |]. split; [congruence |].
    assert (Hlater : forall (P : string -> Prop),
               (exists svc, Some svc ∈ op_service <$> os /\ P svc) ->
               exists svc, Some svc ∈ op_service <$> (o :: os) /\ P svc).
    { intros P (svc & Hin & HP). exists svc. split; [| done].
      rewrite fmap_cons. by apply list_elem_of_further. }
    assert (Hnow : forall (P : string -> Prop),
               (exists svc, op_service o = Some svc /\ P svc) ->
               exists svc, Some svc ∈ op_service <$> (o :: os) /\ P svc).
    { intros P (svc & Hin & HP). exists svc. split; [| done].
      rewrite fmap_cons, Hin. by apply list_elem_of_here. }
    split.
    + destruct Hp' as [Hp' | Hp'].
      * rewrite Hp'. destruct Hp as [Hp | Hp]; [by left | right].
        by apply (Hnow (fun svc => _ = Leased.export_path svc _)).
      * right. by apply (Hlater (fun svc => _ = Leased.export_path svc _)).
    + intros k. rewrite omap_app, elem_of_app. intros [Hk | Hk].
      * apply Hd in Hk as [Hk ->]. eauto.
      * apply Hd' in Hk as [Hk0 [-> | Hk]]; (split; [done |]).
        -- destruct Hp as [Hp | Hp]; [left; congruence | right].
           by apply (Hnow (fun svc => _ = Leased.export_path svc _)).
        -- right.
           by apply (Hlater (fun svc => _ = Leased.export_path svc _)).
Qed.

(** X11. Whatever operations are run on a lease-keyed exporter, in
    whatever order and with whatever answers, they never change its
    connection or its keepalive stream, and every key they delete is
    non-empty and is either the path the exporter held at the start or the
    key of a service exported in that sequence under the exporter's own
    lease.  For an exporter that starts with no published path, as every
    constructor returns it, only keys of services it exported itself, under
    its own lease, are ever deleted. *)
Theorem operations_delete_own_keys_only `{NetLib} {W : Type} (h : Handler W)
    (w : W) (e : Leased.ServiceExporter) (os : list Op) :
  let r := run h (do_ops e os) w in
  Leased.conn (value r) = Leased.conn e /\
  Leased.keepaliveResponses (value r) = Leased.keepaliveResponses e /\
  (forall k, k ∈ omap delete_key (calls r) ->
     k <> "" /\
     (k = Leased.path e \/
      exists svc, Some svc ∈ op_service <$> os /\
                  k = Leased.export_path svc (Leased.leaseID e))) /\
  (Leased.path e = "" ->
   forall k, k ∈ omap delete_key (calls r) ->
     exists svc, Some svc ∈ op_service <$> os /\
                 k = Leased.export_path svc (Leased.leaseID e)).
Proof.
  cbn zeta. destruct (do_ops_deletes h os w e) as (Hc & Hka & _ & Hd).
  cbn zeta in Hc, Hka, Hd.
  split; [done | split; [done | split; [exact Hd |]]].
  intros Hp k Hk. apply Hd in Hk as [Hne [Hk | Hk]]; [congruence | done].
Qed.

Lemma operations_delete_own_keys_only_witness :
  let r := run Sim.sim
             (do_ops Sim.unpublished
                [OpUnexport Sim.ctx0;
                 OpExport Sim.ctx0 "tcp" "127.0.0.1" "foo";
                 OpServeHTTP Sim.ctx0 "web" "127.0.0.1:8080" (HandlerRef 4);
                 OpUnexport Sim.ctx0])
             Sim.fresh in
  omap delete_key (calls r) = ["/ns/service/web/694d5765fc715001"] /\
  exists svc,
    Some svc ∈ [None; Some "foo"; Some "web"; None] /\
    "/ns/service/web/694d5765fc715001" =
      Leased.export_path svc (Sim.lease_base + 1).
Proof.
  split; [reflexivity |].
  destruct (operations_delete_own_keys_only Sim.sim Sim.fresh Sim.unpublished
              [OpUnexport Sim.ctx0;
               OpExport Sim.ctx0 "tcp" "127.0.0.1" "foo";
               OpServeHTTP Sim.ctx0 "web" "127.0.0.1:8080" (HandlerRef 4);
               OpUnexport Sim.ctx0]) as (_ & _ & _ & H4).
  apply (H4 eq_refl "/ns/service/web/694d5765fc715001").
  apply list_elem_of_In. vm_compute. left. reflexivity.
Defined.

(** ** A new exporter has published nothing *)

Lemma NewExporterFromClient_path {W : Type} (h : Handler W) (w : W)
    (ctx : Context) (client : Client) (ttl : Z) (e : Leased.ServiceExporter) :
  fst (value (run h (Leased.NewExporterFromClient ctx client ttl) w)) = Some e
  -> Leased.path e = "" /\ Leased.conn e = client.
Proof.
  rewrite NewExporterFromClient_run, Leased_initLease_run. cbn zeta.
  answer h. destruct x as [lease | err]; cbn; [| by intros [= <-]].
  answer h. destruct x as [ch [err |]]; cbn; by intros [= <-].
Qed.

(** X12. A new exporter has published nothing.  Whatever exporter a
    constructor of either package returns, also next to an error, holds an
    empty last published path, so an unexport on it returns nil, issues no
    call and leaves the world as it is. *)
Theorem new_exporter_has_no_path {W : Type} (h : Handler W) (w : W)
    (ctx : Context) (ttl : Z) :
  (forall (client : Client) (e : Leased.ServiceExporter),
     fst (value (run h (Leased.NewExporterFromClient ctx client ttl) w))
       = Some e ->
     Leased.path e = "" /\
     forall (W' : Type) (h' : Handler W') (w' : W') (ctx' : Context),
       run h' (Leased.UnexportPort e ctx') w' = mkRun (None, e) w' []) /\
  (forall (etcdURL : string) (e : Leased.ServiceExporter),
     fst (value (run h (Leased.NewExporter ctx etcdURL ttl) w)) = Some e ->
     Leased.path e = "" /\
     forall (W' : Type) (h' : Handler W') (w' : W') (ctx' : Context),
       run h' (Leased.UnexportPort e ctx') w' = mkRun (None, e) w' []) /\
  (forall (e : Leased.ServiceExporter),
     fst (value (run h (Leased.NewFromDefault ctx ttl) w)) = Some e ->
     Leased.path e = "" /\
     forall (W' : Type) (h' : Handler W') (w' : W') (ctx' : Context),
       run h' (Leased.UnexportPort e ctx') w' = mkRun (None, e) w' []) /\
  (forall (servers : list string),
     let self := value (run h (Legacy.NewExporter servers) w) in
     Legacy.path self = "" /\
     forall (W' : Type) (h' : Handler W') (w' : W'),
       run h' (Legacy.UnexportPort self) w' = mkRun (None, self) w' []).
Proof.
  split; [| split; [| split]].
  - intros client e He. apply NewExporterFromClient_path in He as [Hp _].
    split; [done |]. intros. by apply Leased_UnexportPort_empty.
  - intros etcdURL e. rewrite NewExporter_run. cbn zeta.
    answer h. destruct x as [client | err]; cbn [value fst]; [| done].
    intros He. apply NewExporterFromClient_path in He as [Hp _].
    split; [done |]. intros. by apply Leased_UnexportPort_empty.
  - intros e. rewrite NewFromDefault_run. cbn zeta.
    answer h. destruct x as [client | err]; cbn [value fst]; [| done].
    intros He. apply NewExporterFromClient_path in He as [Hp _].
    split; [done |]. intros. by apply Leased_UnexportPort_empty.
  - intros servers self. subst self.
    unfold Legacy.NewExporter, call, mbind, Prog_bind, mret, Prog_ret.
    cbn [bind run]. answer h. split; [done |].
    intros. by apply Legacy_UnexportPort_empty.
Qed.

Lemma new_exporter_has_no_path_witness :
  (forall (w' : Sim.World) (ctx' : Context),
     run Sim.sim (Leased.UnexportPort Sim.unpublished ctx') w' =
     mkRun (None, Sim.unpublished) w' []) /\
  (forall (w' : Sim.World) (ctx' : Context),
     run Sim.sim
       (Leased.UnexportPort (Leased.new_ServiceExporter (ClientRef 1)) ctx')
       w' =
     mkRun (None, Leased.new_ServiceExporter (ClientRef 1)) w' []).
Proof.
  split.
  - destruct (new_exporter_has_no_path Sim.sim Sim.fresh Sim.ctx0 10)
      as (H1 & _).
    destruct (H1 Sim.client0 Sim.unpublished) as [_ H]; [reflexivity |].
    intros w' ctx'. apply (H Sim.World Sim.sim w' ctx').
  - destruct (new_exporter_has_no_path Sim.sim
                (Sim.set_down Sim.fresh Sim.grant_down) Sim.ctx0 10)
      as (_ & H2 & _).
    destruct (H2 "http://etcd:2379"
                (Leased.new_ServiceExporter (ClientRef 1))) as [_ H];
      [reflexivity |].
    intros w' ctx'. apply (H Sim.World Sim.sim w' ctx').
Defined.
